(** * The streaming chat client of the Intelligence Hub front end

    A shallow embedding of the consuming side of the streaming query agent:
    - [isValidStep] and the step filter of the [AgentReasoning] component;
    - the mount effect of [ChatInterface] that loads the chat history from
      [localStorage];
    - [handleSubmit] of [ChatInterface]: the read loop over the response
      body, the line buffering, and the dispatch on the [type] of each
      [data: ] frame that updates the assistant message.

    The chunks of the response body are byte strings, and JavaScript
    strings are modelled by their UTF-8 bytes ([string]).  Values that come
    out of [JSON.parse] are kept dynamically typed ([JSValue]); the
    operations of the JavaScript runtime that the program relies on but
    does not define (parsing JSON, IEEE numbers, the coercions of [+],
    [trim], the streaming [TextDecoder], the conversion done by [new Date],
    the code units of a string) are the fields of the class [JSRuntime],
    and every general theorem holds for every runtime.  A submission is
    modelled from the click to the end of its [finally]: the response of
    the server is an input, and the state updates queued with
    [setMessages] are applied in program order. *)

From Stdlib Require Import String Ascii List Bool NArith ZArith DecimalString DecimalN Lia.
From stdpp Require Import base option list strings gmap.

Local Open Scope string_scope.
Local Open Scope list_scope.

(** ** JavaScript values *)

#[warnings="-register-all"]
Inductive JSValue (Num : Type) : Type :=
| JUndefined
| JNull
| JBool (b : bool)
| JNumber (n : Num)
| JString (s : string)
| JArray (elems : list (JSValue Num))
| JObject (props : list (string * JSValue Num)).

Arguments JUndefined {Num}.
Arguments JNull {Num}.
Arguments JBool {Num} b.
Arguments JNumber {Num} n.
Arguments JString {Num} s.
Arguments JArray {Num} elems.
Arguments JObject {Num} props.

(** What the program takes from the JavaScript runtime. [JSON_parse]
    returns [None] where [JSON.parse] throws a [SyntaxError];
    [add_coerced] is the operator [+] when at least one operand is not a
    string (it then goes through [ToPrimitive], [ToString] and IEEE
    addition).  A [Decoder] is the state of a [TextDecoder] used with
    [{ stream: true }]: it takes the bytes one by one, and [decode_byte]
    gives the text that comes out for a byte together with the next state
    (nothing while a sequence is incomplete; a leading byte order mark
    never comes out).  [Date_accepts v] tells whether [new Date(v)] returns
    rather than throws, and [String_units] cuts a string into its UTF-16
    code units. *)
Class JSRuntime (Num : Type) : Type := {
  Number_truthy : Num -> bool;
  add_coerced : JSValue Num -> JSValue Num -> JSValue Num;
  JSON_parse : string -> option (JSValue Num);
  String_trim : string -> string;
  Decoder : Type;
  TextDecoder_new : Decoder;
  decode_byte : Decoder -> ascii -> string * Decoder;
  Date_accepts : JSValue Num -> bool;
  String_units : string -> list string
}.

Definition newline : ascii := "010"%char.
Definition nl : string := String newline "".
Definition dq : string := String "034"%char "".

(** [n.toString()] for a non-negative integer below 1e21. *)
Definition toString (n : N) : string := NilEmpty.string_of_uint (N.to_uint n).

Section Values.
Context {Num : Type} `{RT : JSRuntime Num}.

Definition truthy (v : JSValue Num) : bool :=
  match v with
  | JUndefined | JNull => false
  | JBool b => b
  | JNumber n => Number_truthy n
  | JString s => negb (String.eqb s "")
  | JArray _ | JObject _ => true
  end.

(** [a || b] *)
Definition js_or (a b : JSValue Num) : JSValue Num :=
  if truthy a then a else b.

(** [a + b] *)
Definition js_add (a b : JSValue Num) : JSValue Num :=
  match a, b with
  | JString x, JString y => JString (x ++ y)
  | _, _ => add_coerced a b
  end.

Fixpoint lookup_prop (k : string) (props : list (string * JSValue Num))
  : option (JSValue Num) :=
  match props with
  | [] => None
  | (k', v) :: rest => if String.eqb k' k then Some v else lookup_prop k rest
  end.

(** [{...props, k: v}]: an existing key keeps its place. *)
Fixpoint obj_set (k : string) (v : JSValue Num) (props : list (string * JSValue Num))
  : list (string * JSValue Num) :=
  match props with
  | [] => [(k, v)]
  | (k', v') :: rest =>
      if String.eqb k' k then (k, v) :: rest else (k', v') :: obj_set k v rest
  end.

(** [v.k] for the property names this program reads ([type], [step],
    [content], [summary], [answer], [sql_query], [query_results],
    [columns], [tool], [input], [timestamp]): none of them is defined on
    a built-in prototype, so the read gives [undefined] unless [v] is an
    object that has the key.  [None] is the [TypeError] of reading a
    property of [null] or [undefined]. *)
Definition get_prop (v : JSValue Num) (k : string) : option (JSValue Num) :=
  match v with
  | JUndefined | JNull => None
  | JObject props => Some (default JUndefined (lookup_prop k props))
  | _ => Some JUndefined
  end.

(** [data.k] where [data] is known not to be [null]. *)
Definition field (data : JSValue Num) (k : string) : JSValue Num :=
  default JUndefined (get_prop data k).

(** [v === 's'] for a string literal ['s'] *)
Definition strict_eq_string (v : JSValue Num) (s : string) : bool :=
  match v with
  | JString x => String.eqb x s
  | _ => false
  end.

(** [v !== undefined] *)
Definition is_defined (v : JSValue Num) : bool :=
  match v with
  | JUndefined => false
  | _ => true
  end.

(** [typeof v === 'object'] *)
Definition typeof_object (v : JSValue Num) : bool :=
  match v with
  | JNull | JArray _ | JObject _ => true
  | _ => false
  end.

(** [typeof v === 'string'] *)
Definition typeof_string (v : JSValue Num) : bool :=
  match v with
  | JString _ => true
  | _ => false
  end.

End Values.

(** ** AgentReasoning: the validity filter on reasoning steps *)

Module AgentReasoning.
Section AgentReasoning.
Context {Num : Type} `{RT : JSRuntime Num}.

Definition isValidStep (step : JSValue Num) : bool :=
  if negb (truthy step) || negb (typeof_object step) then false
  else
    match get_prop step "type" with
    | None => false
    | Some ty =>
        if negb (truthy ty) || negb (typeof_string ty) then false
        else if strict_eq_string ty "action" then
          match get_prop step "tool", get_prop step "input" with
          | Some tool, Some input => is_defined tool && is_defined input
          | _, _ => false
          end
        else
          match get_prop step "content" with
          | Some content => is_defined content
          | None => false
          end
    end.

Definition validReasoningSteps (reasoningSteps : list (JSValue Num))
  : list (JSValue Num) :=
  filter (fun step => isValidStep step = true) reasoningSteps.

Definition getStepLabel (type : string) : string :=
  if String.eqb type "thought" then "Thinking"
  else if String.eqb type "action" then "Action"
  else if String.eqb type "observation" then "Result"
  else type.

(** The labels of the step cards that the component shows when it is
    visible and expanded: one card per valid step, in order. *)
Definition renderedLabels (reasoningSteps : list (JSValue Num)) : list string :=
  omap (fun step =>
          match get_prop step "type" with
          | Some (JString ty) => Some (getStepLabel ty)
          | _ => None
          end)
       (validReasoningSteps reasoningSteps).

(** The three kinds of the [ReasoningStep] interface. *)
Definition known_kind (ty : string) : Prop :=
  ty = "thought" \/ ty = "action" \/ ty = "observation".

End AgentReasoning.
End AgentReasoning.

(** ** ChatInterface: messages and component state *)

Inductive MessageType : Type := user | assistant.

(** The [Message] interface.  The fields that [handleSubmit] fills from a
    parsed frame hold whatever value the frame carried; an absent optional
    field is [JUndefined] or [None]. *)
Record Message (Num : Type) : Type := mkMessage {
  id : string;
  type : MessageType;
  content : JSValue Num;
  sqlQuery : JSValue Num;
  queryResults : JSValue Num;
  columns : JSValue Num;
  reasoningSteps : option (list (JSValue Num));
  timestamp : N;
  isStreaming : option bool
}.

Arguments mkMessage {Num}.
Arguments id {Num}.
Arguments type {Num}.
Arguments content {Num}.
Arguments sqlQuery {Num}.
Arguments queryResults {Num}.
Arguments columns {Num}.
Arguments reasoningSteps {Num}.
Arguments timestamp {Num}.
Arguments isStreaming {Num}.

(** What a promise can reject with, as the outer [catch] sees it:
    [err instanceof Error] with its [message], or some other value. *)
Inductive Thrown : Type :=
| ErrorObj (message : string)
| NonError.

(** The ways the streaming request can go. [reads] are the chunks that
    [reader.read()] delivers before the stream ends. *)
Inductive StreamEnd : Type :=
| Done
| ReadRejected (e : Thrown).

Inductive Response : Type :=
| FetchRejected (e : Thrown)
| HttpNotOk (status : N)
| NoBody
| Streaming (reads : list string) (ending : StreamEnd).

(** The four readings of the clock in [handleSubmit], in program order:
    [Date.now()] and [new Date()] for the user message, then the same two
    for the assistant message. *)
Record Clock : Type := mkClock {
  userNow : N;
  userDate : N;
  assistantNow : N;
  assistantDate : N
}.

Record State (Num : Type) : Type := mkState {
  messages : list (Message Num);
  inputValue : string;
  isLoading : bool;
  error : option string
}.

Arguments mkState {Num}.
Arguments messages {Num}.
Arguments inputValue {Num}.
Arguments isLoading {Num}.
Arguments error {Num}.

(** ** Line buffering *)

(** [s.split('\n')]: never empty, the last piece is what follows the last
    newline. *)
Fixpoint split_newline (s : string) : list string :=
  match s with
  | EmptyString => [EmptyString]
  | String c rest =>
      if Ascii.eqb c newline then EmptyString :: split_newline rest
      else
        match split_newline rest with
        | piece :: pieces => String c piece :: pieces
        | [] => [String c EmptyString]
        end
  end.

(** [buffer += chunk; lines = buffer.split('\n'); buffer = lines.pop() || ''] *)
Definition nextLines (buffer value : string) : list string * string :=
  let pieces := split_newline (buffer ++ value) in
  (removelast pieces, default "" (last pieces)).

(** [line.slice(n)] *)
Fixpoint slice (n : nat) (line : string) : string :=
  match n, line with
  | O, _ => line
  | S _, EmptyString => EmptyString
  | S n', String _ rest => slice n' rest
  end.

(** [line.startsWith(p)] *)
Definition startsWith (p line : string) : bool := String.prefix p line.

(** ** handleSubmit *)

Section HandleSubmit.
Context {Num : Type} `{RT : JSRuntime Num}.

Definition set_reasoningSteps (v : list (JSValue Num)) (msg : Message Num) : Message Num :=
  mkMessage (id msg) (type msg) (content msg) (sqlQuery msg) (queryResults msg)
            (columns msg) (Some v) (timestamp msg) (isStreaming msg).

Definition set_content (v : JSValue Num) (msg : Message Num) : Message Num :=
  mkMessage (id msg) (type msg) v (sqlQuery msg) (queryResults msg)
            (columns msg) (reasoningSteps msg) (timestamp msg) (isStreaming msg).

Definition set_isStreaming (b : bool) (msg : Message Num) : Message Num :=
  mkMessage (id msg) (type msg) (content msg) (sqlQuery msg) (queryResults msg)
            (columns msg) (reasoningSteps msg) (timestamp msg) (Some b).

(** [setMessages(prev => prev.map(msg => msg.id === aid ? f msg : msg))] *)
Definition updateAssistant (aid : string) (f : Message Num -> Message Num)
           (prev : list (Message Num)) : list (Message Num) :=
  map (fun msg => if String.eqb (id msg) aid then f msg else msg) prev.

(** [{ ...msg, reasoningSteps: [...(msg.reasoningSteps || []), step] }] *)
Definition addReasoningStep (step : JSValue Num) (msg : Message Num) : Message Num :=
  set_reasoningSteps (default [] (reasoningSteps msg) ++ [step]) msg.

(** [{ ...msg, content: (msg.content || '') + token }] *)
Definition appendToken (token : JSValue Num) (msg : Message Num) : Message Num :=
  set_content (js_add (js_or (content msg) (JString "")) token) msg.

(** [{ ...msg, isStreaming: false }] *)
Definition stopStreaming (msg : Message Num) : Message Num :=
  set_isStreaming false msg.

(** [{ ...msg, content: summary || answer, sqlQuery: sql_query,
      queryResults: query_results, columns: columns, isStreaming: false }] *)
Definition applyFinalResult (summary answer sql_query query_results cols : JSValue Num)
           (msg : Message Num) : Message Num :=
  mkMessage (id msg) (type msg) (js_or summary answer) sql_query query_results
            cols (reasoningSteps msg) (timestamp msg) (Some false).

(** The outer [catch]:
    [{ ...msg, content: `Sorry, I encountered an error: ${errorMessage}`,
       isStreaming: false }] *)
Definition applyFailure (errorMessage : string) (msg : Message Num) : Message Num :=
  set_isStreaming false
    (set_content (JString ("Sorry, I encountered an error: " ++ errorMessage)) msg).

(** What the inner [try] block can throw; the inner [catch] only logs it. *)
Inductive Exn : Type :=
| SyntaxError
| TypeError
| NewError (arg : JSValue Num).

(** How the inner [try] block completes for one [data: ] line. *)
Inductive Completion : Type :=
| Normal (ms : list (Message Num))
| Break (ms : list (Message Num))
| Throw (e : Exn).

(** The body of the inner [try], for the text after [data: ]. *)
Definition tryBlock (aid payload : string) (ms : list (Message Num)) : Completion :=
  match JSON_parse payload with
  | None => Throw SyntaxError
  | Some data =>
      match get_prop data "type" with
      | None => Throw TypeError
      | Some ty =>
          if strict_eq_string ty "reasoning_step" then
            Normal (updateAssistant aid (addReasoningStep (field data "step")) ms)
          else if strict_eq_string ty "chat_token" then
            Normal (updateAssistant aid (appendToken (field data "content")) ms)
          else if strict_eq_string ty "chat_done" then
            Normal (updateAssistant aid stopStreaming ms)
          else if strict_eq_string ty "final_result" then
            Break (updateAssistant aid
                     (applyFinalResult (field data "summary") (field data "answer")
                        (field data "sql_query") (field data "query_results")
                        (field data "columns"))
                     ms)
          else if strict_eq_string ty "error" then
            Throw (NewError (field data "content"))
          else Normal ms
      end
  end.

(** One iteration of [for (const line of lines)]: go on with the next
    line, or leave the [for] loop. *)
Inductive Iteration : Type :=
| Continue (ms : list (Message Num))
| Exit (ms : list (Message Num)).

Definition messages_of (r : Iteration) : list (Message Num) :=
  match r with
  | Continue ms | Exit ms => ms
  end.

Definition handleLine (aid line : string) (ms : list (Message Num)) : Iteration :=
  if startsWith "data: " line then
    match tryBlock aid (slice 6 line) ms with
    | Normal ms' => Continue ms'
    | Break ms' => Exit ms'
    | Throw _ => Continue ms
    end
  else Continue ms.

Fixpoint forLines (aid : string) (lines : list string) (ms : list (Message Num))
  : Iteration :=
  match lines with
  | [] => Continue ms
  | line :: rest =>
      match handleLine aid line ms with
      | Continue ms' => forLines aid rest ms'
      | Exit ms' => Exit ms'
      end
  end.

(** [decoder.decode(value, { stream: true })]: the text that comes out for
    the bytes of a chunk, and the decoder after them. *)
Fixpoint decode (decoder : Decoder) (value : string) : string * Decoder :=
  match value with
  | EmptyString => (EmptyString, decoder)
  | String b rest =>
      let '(out, decoder') := decode_byte decoder b in
      let '(outs, decoder'') := decode decoder' rest in
      (String.append out outs, decoder'')
  end.

(** [while (true)] over the chunks that arrive before the stream is
    done; returns the messages and the buffer that is left. *)
Fixpoint readLoop (aid : string) (reads : list string) (decoder : Decoder)
         (buffer : string) (ms : list (Message Num)) : list (Message Num) * string :=
  match reads with
  | [] => (ms, buffer)
  | value :: rest =>
      let '(text, decoder') := decode decoder value in
      let '(lines, buffer') := nextLines buffer text in
      readLoop aid rest decoder' buffer' (messages_of (forLines aid lines ms))
  end.

(** The outer [try] block: the messages it leaves, and what it threw. *)
Definition request (aid : string) (resp : Response) (ms : list (Message Num))
  : list (Message Num) * option Thrown :=
  match resp with
  | FetchRejected e => (ms, Some e)
  | HttpNotOk status => (ms, Some (ErrorObj ("HTTP error! status: " ++ toString status)))
  | NoBody => (ms, Some (ErrorObj "No response body"))
  | Streaming reads ending =>
      let ms' := fst (readLoop aid reads TextDecoder_new "" ms) in
      match ending with
      | Done => (ms', None)
      | ReadRejected e => (ms', Some e)
      end
  end.

Definition userMessage (clock : Clock) (text : string) : Message Num :=
  mkMessage (toString (userNow clock)) user (JString text)
            JUndefined JUndefined JUndefined None (userDate clock) None.

Definition assistantMessage (clock : Clock) : Message Num :=
  mkMessage (toString (assistantNow clock + 1)) assistant (JString "")
            JUndefined JUndefined JUndefined (Some []) (assistantDate clock) (Some true).

Definition handleSubmit (clock : Clock) (resp : Response) (st : State Num) : State Num :=
  if String.eqb (String_trim (inputValue st)) "" || isLoading st then st
  else
    let aid := id (assistantMessage clock) in
    let ms := (messages st ++ [userMessage clock (String_trim (inputValue st))])
                ++ [assistantMessage clock] in
    match request aid resp ms with
    | (ms', None) => mkState ms' "" false None
    | (ms', Some err) =>
        let errorMessage :=
          match err with
          | ErrorObj message => message
          | NonError => "An error occurred"
          end in
        mkState (updateAssistant aid (applyFailure errorMessage) ms') "" false
                (Some errorMessage)
    end.

(** *** Notions used to state the properties *)

(** The parsed payload of a [data: ] line, and its [type] field. *)
Definition frameData (line : string) : option (JSValue Num) :=
  if startsWith "data: " line then JSON_parse (slice 6 line) else None.

Definition frameType (line : string) : option (JSValue Num) :=
  data ← frameData line; get_prop data "type".

Definition hasType (line ty : string) : Prop :=
  frameType line = Some (JString ty).

(** A line that is not one of the frames after which the source means
    the message to stop streaming. *)
Definition quiet (line : string) : Prop :=
  ~ hasType line "chat_done" /\ ~ hasType line "final_result"
  /\ ~ hasType line "error".

(** A line that no message reacts to. *)
Definition ignored (aid line : string) : Prop :=
  forall ms, handleLine aid line ms = Continue ms.

(** Nothing but ignored lines follows a [final_result] line. *)
Fixpoint finalResultLast (aid : string) (lines : list string) : Prop :=
  match lines with
  | [] => True
  | line :: rest =>
      (hasType line "final_result" -> Forall (ignored aid) rest)
      /\ finalResultLast aid rest
  end.

(** The text that each read gives once decoded, the decoder after the
    reads, and the whole decoded text of a stream: what the program sees
    of the bytes. *)
Fixpoint decodeReads (decoder : Decoder) (reads : list string) : list string :=
  match reads with
  | [] => []
  | value :: rest =>
      let '(text, decoder') := decode decoder value in
      text :: decodeReads decoder' rest
  end.

Fixpoint decoderAfter (decoder : Decoder) (reads : list string) : Decoder :=
  match reads with
  | [] => decoder
  | value :: rest => decoderAfter (snd (decode decoder value)) rest
  end.

Definition textOf (reads : list string) : string :=
  fold_right String.append "" (decodeReads TextDecoder_new reads).

(** The loop of [readLoop] over texts that are already decoded. *)
Fixpoint readTexts (aid : string) (texts : list string) (buffer : string)
         (ms : list (Message Num)) : list (Message Num) * string :=
  match texts with
  | [] => (ms, buffer)
  | text :: rest =>
      let '(lines, buffer') := nextLines buffer text in
      readTexts aid rest buffer' (messages_of (forLines aid lines ms))
  end.

(** The runtime's decoder gives out a newline for a newline byte only. *)
Definition decoderMakesNoNewline : Prop :=
  forall (decoder : Decoder) (b : ascii),
    b <> newline ->
    split_newline (fst (decode_byte decoder b)) = [fst (decode_byte decoder b)].

(** The lines that each text hands to the [for] loop. *)
Fixpoint linesOfReads (texts : list string) (buffer : string) : list (list string) :=
  match texts with
  | [] => []
  | text :: rest =>
      let '(lines, buffer') := nextLines buffer text in
      lines :: linesOfReads rest buffer'
  end.

(** The lines that the reads of a stream hand to the [for] loop, read by
    read. *)
Definition linesHandedOver (reads : list string) : list (list string) :=
  linesOfReads (decodeReads TextDecoder_new reads) "".

(** A message without the two fields that come from the clock. *)
Definition observable (msg : Message Num)
  : MessageType * JSValue Num * JSValue Num * JSValue Num * JSValue Num
    * option (list (JSValue Num)) * option bool :=
  (type msg, content msg, sqlQuery msg, queryResults msg, columns msg,
   reasoningSteps msg, isStreaming msg).

(** [isStreaming] is as it was, or has become [false]. *)
Definition keepsOrStops (before after : Message Num) : Prop :=
  isStreaming after = isStreaming before \/ isStreaming after = Some false.

(** Two messages of two runs whose assistant messages have the ids
    [aid1] and [aid2]: equal apart from the clock, and in the same role. *)
Definition sameUpTo (aid1 aid2 : string) (m1 m2 : Message Num) : Prop :=
  observable m1 = observable m2 /\ (id m1 = aid1 <-> id m2 = aid2).

(** What every update of [handleSubmit] has in common: it keeps the id,
    never turns [isStreaming] back on, and reads nothing but the fields
    of [observable]. *)
Definition wellBehaved (f : Message Num -> Message Num) : Prop :=
  (forall m, id (f m) = id m)
  /\ (forall m, keepsOrStops m (f m))
  /\ (forall m m', observable m = observable m' -> observable (f m) = observable (f m')).

(** A clock that does not run backwards between the two [Date.now()]. *)
Definition monotone (clock : Clock) : Prop :=
  (userNow clock <= assistantNow clock)%N.

(** The state of a freshly mounted component in which the user has
    typed [question]. *)
Definition fresh (question : string) : State Num :=
  mkState [] question false None.

End HandleSubmit.

(** The whole text of a stream, and its split into complete lines and the
    partial line that follows the last newline. *)
Definition streamOf (reads : list string) : string :=
  fold_right String.append "" reads.

Definition completeLines (stream : string) : list string :=
  removelast (split_newline stream).

Definition partialLine (stream : string) : string :=
  default "" (last (split_newline stream)).

Section SameEvents.
Context {Num : Type} `{RT : JSRuntime Num}.

(** The events that a stream delivers: the parsed payloads of the
    complete [data: ] lines of its decoded text, in order. *)
Definition events (reads : list string) : list (JSValue Num) :=
  omap frameData (completeLines (textOf reads)).

(** Two responses that bring the same events in the same way: the same
    response, or two streams that deliver the same events and end in the
    same way, whatever their bytes and reads, in each of which nothing but
    ignored lines follows a [final_result] frame. *)
Definition sameEvents (resp1 resp2 : Response) : Prop :=
  resp1 = resp2
  \/ exists reads1 reads2 ending,
       resp1 = Streaming reads1 ending /\ resp2 = Streaming reads2 ending
       /\ events reads1 = events reads2
       /\ forall aid : string,
           finalResultLast (Num := Num) aid (completeLines (textOf reads1))
           /\ finalResultLast (Num := Num) aid (completeLines (textOf reads2)).

End SameEvents.

(** ** ChatInterface: loading the chat history when the component mounts *)

Module Startup.
Section Startup.
Context {Num : Type} `{RT : JSRuntime Num}.

(** A loaded message [{ ...msg, timestamp: new Date(msg.timestamp) }]:
    the own properties copied from [msg], and the argument of the [Date]
    that overrides its [timestamp].  The source hands these objects to
    [setMessages] without checking them against [Message]. *)
Record Revived : Type := mkRevived {
  spread : list (string * JSValue Num);
  dateArg : JSValue Num
}.

Fixpoint indexed (i : N) (vs : list (JSValue Num)) : list (string * JSValue Num) :=
  match vs with
  | [] => []
  | v :: rest => (toString i, v) :: indexed (i + 1) rest
  end.

(** The own enumerable properties that [...msg] copies. *)
Definition ownProps (msg : JSValue Num) : list (string * JSValue Num) :=
  match msg with
  | JObject props => props
  | JArray elems => indexed 0 elems
  | JString s => indexed 0 (map JString (String_units s))
  | _ => []
  end.

(** The callback of [parsedMessages.map]; [None] is a [TypeError], of
    reading [timestamp] from [null] or of [new Date] on a value that cannot
    be made a primitive. *)
Definition revive (msg : JSValue Num) : option Revived :=
  ts ← get_prop msg "timestamp";
  if Date_accepts ts then Some (mkRevived (ownProps msg) ts) else None.

Record MountState : Type := mkMountState {
  localStorage : gmap string string;
  loaded : list Revived;
  prevMessageCount : nat;
  initialLoadComplete : bool
}.

(** The body of the inner [try]: [None] when it throws. *)
Definition parseHistory (savedMessages : string) : option (list Revived) :=
  match JSON_parse savedMessages with
  | Some (JArray parsedMessages) => mapM revive parsedMessages
  | _ => None
  end.

(** The mount effect of [ChatInterface]. *)
Definition loadHistory (st : MountState) : MountState :=
  let st' :=
    match localStorage st !! "chatHistory" with
    | Some savedMessages =>
        if negb (String.eqb savedMessages "") then
          match parseHistory savedMessages with
          | Some messagesWithDates =>
              mkMountState (localStorage st) messagesWithDates
                           (length messagesWithDates) (initialLoadComplete st)
          | None =>
              mkMountState (delete "chatHistory" (localStorage st)) (loaded st)
                           (prevMessageCount st) (initialLoadComplete st)
          end
        else st
    | None => st
    end in
  mkMountState (localStorage st') (loaded st') (prevMessageCount st') true.

(** The component state before the effect runs, over a given store. *)
Definition initialState (store : gmap string string) : MountState :=
  mkMountState store [] 0 false.

End Startup.
End Startup.

(** ** A reference runtime

    A concrete runtime to run the model on concrete frames.  Numbers are
    the integers and NaN; its parser reads JSON texts whose numbers are
    integer literals and whose strings use no [\u] escape, and rejects the
    others. *)

Module RefRuntime.

Inductive RefNum : Type := RNaN | RInt (z : Z).

Definition JV : Type := JSValue RefNum.

Definition is_ws (c : ascii) : bool :=
  Ascii.eqb c " " || Ascii.eqb c "009" || Ascii.eqb c "010" || Ascii.eqb c "013".

Fixpoint skip_ws (s : string) : string :=
  match s with
  | String c rest => if is_ws c then skip_ws rest else s
  | EmptyString => s
  end.

Definition is_digit (c : ascii) : bool :=
  (48 <=? nat_of_ascii c)%nat && (nat_of_ascii c <=? 57)%nat.

Definition digit_value (c : ascii) : Z := Z.of_nat (nat_of_ascii c - 48).

Fixpoint read_digits (acc : Z) (s : string) : Z * string :=
  match s with
  | String c rest => if is_digit c then read_digits (10 * acc + digit_value c) rest else (acc, s)
  | EmptyString => (acc, s)
  end.

Definition ends_integer (s : string) : bool :=
  match s with
  | String c _ => negb (Ascii.eqb c "." || Ascii.eqb c "e" || Ascii.eqb c "E" || is_digit c)
  | EmptyString => true
  end.

(** An integer literal: [0] or a digit sequence without leading zero. *)
Definition read_natural (s : string) : option (Z * string) :=
  match s with
  | String c rest =>
      if Ascii.eqb c "0" then if ends_integer rest then Some (0%Z, rest) else None
      else if is_digit c then
        let '(z, rest') := read_digits 0 s in
        if ends_integer rest' then Some (z, rest') else None
      else None
  | EmptyString => None
  end.

Definition read_number (s : string) : option (JV * string) :=
  match s with
  | String c rest =>
      if Ascii.eqb c "-" then
        '(z, rest') ← read_natural rest; Some (JNumber (RInt (- z)), rest')
      else
        '(z, rest') ← read_natural s; Some (JNumber (RInt z), rest')
  | EmptyString => None
  end.

Definition unescape (c : ascii) : option ascii :=
  if Ascii.eqb c "034" then Some "034"%char
  else if Ascii.eqb c "\" then Some "\"%char
  else if Ascii.eqb c "/" then Some "/"%char
  else if Ascii.eqb c "b" then Some "008"%char
  else if Ascii.eqb c "f" then Some "012"%char
  else if Ascii.eqb c "n" then Some "010"%char
  else if Ascii.eqb c "r" then Some "013"%char
  else if Ascii.eqb c "t" then Some "009"%char
  else None.

(** The characters of a string literal after its opening quote. *)
Fixpoint read_chars (s : string) : option (string * string) :=
  match s with
  | EmptyString => None
  | String c rest =>
      if Ascii.eqb c "034" then Some (EmptyString, rest)
      else if Ascii.eqb c "\" then
        match rest with
        | String e rest' =>
            ch ← unescape e;
            '(body, after) ← read_chars rest';
            Some (String ch body, after)
        | EmptyString => None
        end
      else if (nat_of_ascii c <? 32)%nat then None
      else
        '(body, after) ← read_chars rest;
        Some (String c body, after)
  end.

Inductive Mode : Type :=
| MValue
| MElems (acc : list JV)
| MMembers (acc : list (string * JV)).

Fixpoint read (fuel : nat) (mode : Mode) (s : string) : option (JV * string) :=
  match fuel with
  | O => None
  | S fuel' =>
      match mode with
      | MValue =>
          match skip_ws s with
          | EmptyString => None
          | String c rest as s' =>
              if Ascii.eqb c "{" then
                match skip_ws rest with
                | String c' rest' =>
                    if Ascii.eqb c' "}" then Some (JObject [], rest')
                    else read fuel' (MMembers []) rest
                | EmptyString => None
                end
              else if Ascii.eqb c "[" then
                match skip_ws rest with
                | String c' rest' =>
                    if Ascii.eqb c' "]" then Some (JArray [], rest')
                    else read fuel' (MElems []) rest
                | EmptyString => None
                end
              else if Ascii.eqb c "034" then
                '(body, after) ← read_chars rest; Some (JString body, after)
              else if String.prefix "true" s' then Some (JBool true, slice 4 s')
              else if String.prefix "false" s' then Some (JBool false, slice 5 s')
              else if String.prefix "null" s' then Some (JNull, slice 4 s')
              else read_number s'
          end
      | MElems acc =>
          '(v, after) ← read fuel' MValue s;
          match skip_ws after with
          | String c rest =>
              if Ascii.eqb c "," then read fuel' (MElems (acc ++ [v])) rest
              else if Ascii.eqb c "]" then Some (JArray (acc ++ [v]), rest)
              else None
          | EmptyString => None
          end
      | MMembers acc =>
          match skip_ws s with
          | String c rest =>
              if Ascii.eqb c "034" then
                '(key, after) ← read_chars rest;
                match skip_ws after with
                | String c' rest' =>
                    if Ascii.eqb c' ":" then
                      '(v, after') ← read fuel' MValue rest';
                      match skip_ws after' with
                      | String c'' rest'' =>
                          if Ascii.eqb c'' "," then
                            read fuel' (MMembers (obj_set key v acc)) rest''
                          else if Ascii.eqb c'' "}" then
                            Some (JObject (obj_set key v acc), rest'')
                          else None
                      | EmptyString => None
                      end
                    else None
                | EmptyString => None
                end
              else None
          | EmptyString => None
          end
      end
  end.

Definition parse (s : string) : option JV :=
  '(v, after) ← read (2 * String.length s + 2) MValue s;
  if String.eqb (skip_ws after) "" then Some v else None.

Definition num_truthy (n : RefNum) : bool :=
  match n with
  | RNaN => false
  | RInt z => negb (Z.eqb z 0)
  end.

Definition num_to_string (n : RefNum) : string :=
  match n with
  | RNaN => "NaN"
  | RInt z => (if (z <? 0)%Z then "-" else "") ++ toString (Z.abs_N z)
  end.

Definition num_add (a b : RefNum) : RefNum :=
  match a, b with
  | RInt x, RInt y => RInt (x + y)
  | _, _ => RNaN
  end.

(** [String(v)] *)
Fixpoint display (v : JV) : string :=
  match v with
  | JUndefined => "undefined"
  | JNull => "null"
  | JBool b => if b then "true" else "false"
  | JNumber n => num_to_string n
  | JString s => s
  | JArray elems =>
      (fix join (vs : list JV) : string :=
         match vs with
         | [] => ""
         | v' :: rest =>
             String.append
               (match v' with JUndefined | JNull => "" | _ => display v' end)
               (match rest with [] => "" | _ => String.append "," (join rest) end)
         end) elems
  | JObject _ => "[object Object]"
  end.

(** [Number(v)] for a primitive that is not a string *)
Definition to_number (v : JV) : RefNum :=
  match v with
  | JNull => RInt 0
  | JBool b => RInt (if b then 1 else 0)
  | JNumber n => n
  | _ => RNaN
  end.

Definition stringy (v : JV) : bool :=
  match v with
  | JString _ | JArray _ | JObject _ => true
  | _ => false
  end.

Definition add (a b : JV) : JV :=
  if stringy a || stringy b then JString (display a ++ display b)
  else JNumber (num_add (to_number a) (to_number b)).

Fixpoint trim_start (s : string) : string :=
  match s with
  | String c rest => if Ascii.is_space c then trim_start rest else s
  | EmptyString => s
  end.

(** [trim] for ASCII white space. *)
Definition trim (s : string) : string :=
  String.rev (trim_start (String.rev (trim_start s))).

(** The UTF-8 decoder of the Encoding standard, used as a stream.  What
    it gives out is written back as UTF-8: the byte itself for an ASCII
    byte, the encoding of the scalar value for a completed sequence, and
    the encoding of U+FFFD for an error. *)
Inductive Item : Type :=
| Plain (b : ascii)
| Scalar (cp : N).

Record RefDecoder : Type := mkRefDecoder {
  bomSeen : bool;
  needed : N;
  seen : N;
  lower : N;
  upper : N;
  codePoint : N
}.

Definition newDecoder : RefDecoder := mkRefDecoder false 0 0 128 191 0.

Definition reset (d : RefDecoder) : RefDecoder :=
  mkRefDecoder (bomSeen d) 0 0 128 191 0.

Definition between (lo hi n : N) : bool := (lo <=? n)%N && (n <=? hi)%N.

(** A byte that arrives when no sequence is open. *)
Definition start (d : RefDecoder) (b : ascii) : list Item * RefDecoder :=
  let n := N_of_ascii b in
  if (n <=? 127)%N then ([Plain b], d)
  else if between 194 223 n then
    ([], mkRefDecoder (bomSeen d) 1 0 128 191 (n - 192))
  else if between 224 239 n then
    ([], mkRefDecoder (bomSeen d) 2 0 (if (n =? 224)%N then 160 else 128)
                      (if (n =? 237)%N then 159 else 191) (n - 224))
  else if between 240 244 n then
    ([], mkRefDecoder (bomSeen d) 3 0 (if (n =? 240)%N then 144 else 128)
                      (if (n =? 244)%N then 143 else 191) (n - 240))
  else ([Scalar 65533], d).

(** The handler of the decoder for one byte. *)
Definition handler (d : RefDecoder) (b : ascii) : list Item * RefDecoder :=
  let n := N_of_ascii b in
  if (needed d =? 0)%N then start d b
  else if negb (between (lower d) (upper d) n) then
    let '(items, d') := start (reset d) b in (Scalar 65533 :: items, d')
  else
    let cp := (codePoint d * 64 + (n - 128))%N in
    if (seen d + 1 =? needed d)%N then ([Scalar cp], reset d)
    else ([], mkRefDecoder (bomSeen d) (needed d) (seen d + 1) 128 191 cp).

(** The first scalar value of the stream is dropped when it is the byte
    order mark U+FEFF. *)
Definition sniff (seenBefore : bool) (items : list Item) : list Item * bool :=
  match items with
  | [] => ([], seenBefore)
  | item :: rest =>
      if seenBefore then (items, true)
      else
        match item with
        | Scalar cp => if (cp =? 65279)%N then (rest, true) else (items, true)
        | Plain _ => (items, true)
        end
  end.

Definition high (base k x : N) : ascii := ascii_of_N (base + x mod k).

(** The UTF-8 bytes of a scalar value above U+007F. *)
Definition encode (cp : N) : string :=
  if (cp <? 2048)%N then
    String (high 192 32 (cp / 64)) (String (high 128 64 cp) EmptyString)
  else if (cp <? 65536)%N then
    String (high 224 16 (cp / 4096))
      (String (high 128 64 (cp / 64)) (String (high 128 64 cp) EmptyString))
  else
    String (high 240 8 (cp / 262144))
      (String (high 128 64 (cp / 4096))
         (String (high 128 64 (cp / 64)) (String (high 128 64 cp) EmptyString))).

Definition written (item : Item) : string :=
  match item with
  | Plain b => String b EmptyString
  | Scalar cp => encode cp
  end.

Definition decodeByte (d : RefDecoder) (b : ascii) : string * RefDecoder :=
  let '(items, d') := handler d b in
  let '(items', bom) := sniff (bomSeen d') items in
  (fold_right (fun item out => String.append (written item) out) EmptyString items',
   mkRefDecoder bom (needed d') (seen d') (lower d') (upper d') (codePoint d')).

(** [new Date(v)] makes [v] a primitive first: an object from JSON fails
    to give one exactly when it has a key [toString] of its own (which a
    JSON value cannot make callable), an array when one of its elements
    that is neither [null] nor [undefined] fails in its turn. *)
Fixpoint primitivable (v : JV) : bool :=
  match v with
  | JObject props =>
      negb (existsb (fun kv => String.eqb (fst kv) "toString") props)
  | JArray elems =>
      (fix all (vs : list JV) : bool :=
         match vs with
         | [] => true
         | v' :: rest => primitivable v' && all rest
         end) elems
  | _ => true
  end.

Definition surrogate (u : N) : string :=
  String (ascii_of_N 237)
    (String (high 128 64 (u / 64)) (String (high 128 64 u) EmptyString)).

(** The UTF-16 code units of a string given by its UTF-8 bytes, one string
    per unit; the two units of a scalar value above U+FFFF are written as
    the three bytes of each surrogate. *)
Fixpoint units (fuel : nat) (s : string) : list string :=
  match fuel, s with
  | S fuel', String b0 rest =>
      let n := N_of_ascii b0 in
      let unit i := match String.get i s with Some c => N_of_ascii c | None => 128%N end in
      if (n <? 192)%N then String b0 EmptyString :: units fuel' rest
      else if (n <? 224)%N then String.substring 0 2 s :: units fuel' (slice 2 s)
      else if (n <? 240)%N then String.substring 0 3 s :: units fuel' (slice 3 s)
      else
        let cp := ((n - 240) * 262144 + (unit 1%nat - 128) * 4096
                   + (unit 2%nat - 128) * 64 + (unit 3%nat - 128) - 65536)%N in
        surrogate (55296 + cp / 1024) :: surrogate (56320 + cp mod 1024)
                  :: units fuel' (slice 4 s)
  | _, _ => []
  end.

#[export] Instance runtime : JSRuntime RefNum := {|
  Number_truthy := num_truthy;
  add_coerced := add;
  JSON_parse := parse;
  String_trim := trim;
  Decoder := RefDecoder;
  TextDecoder_new := newDecoder;
  decode_byte := decodeByte;
  Date_accepts := primitivable;
  String_units := fun s => units (String.length s) s
|}.

(** Building JSON text: a quoted string and a [data: ] line. *)
Definition q (s : string) : string := dq ++ s ++ dq.

Definition frame (json : string) : string := "data: " ++ json.

End RefRuntime.

(** ** Concrete frames and runs *)

Module Examples.
Import RefRuntime.

Fixpoint members (kvs : list (string * string)) : string :=
  match kvs with
  | [] => ""
  | [(k, v)] => q k ++ ":" ++ v
  | (k, v) :: rest => q k ++ ":" ++ v ++ "," ++ members rest
  end.

(** The JSON text of an object, from its keys and the texts of its values. *)
Definition object (kvs : list (string * string)) : string :=
  "{" ++ members kvs ++ "}".

Definition errorFrame : string :=
  frame (object [("type", q "error"); ("content", q "tool timeout")]).

Definition chatDoneFrame : string :=
  frame (object [("type", q "chat_done")]).

Definition tokenFrame (text : string) : string :=
  frame (object [("type", q "chat_token"); ("content", q text)]).

Definition thoughtFrame : string :=
  frame (object [("type", q "reasoning_step");
                 ("step", object [("type", q "thought");
                                  ("content", q "checking schema")])]).

Definition finalFrame : string :=
  frame (object [("type", q "final_result"); ("summary", q "Result is 1");
                 ("query_results", "[[1]]"); ("columns", String.append "[" (String.append (q "n") "]"))]).

Definition answerOnlyFrame : string :=
  frame (object [("type", q "final_result"); ("summary", q "");
                 ("answer", q "Result is 1")]).

Definition heartbeatFrame : string :=
  frame (object [("type", q "heartbeat"); ("content", q "still here")]).

Definition corruptFrame : string := frame "{not valid json}".

(** The three bytes of a UTF-8 byte order mark, which a server may put at
    the head of the body, and the two bytes of U+00E9. *)
Definition bom : string :=
  String (ascii_of_N 239) (String (ascii_of_N 187) (String (ascii_of_N 191) "")).

Definition eAcuteLead : string := String (ascii_of_N 195) "".

Definition eAcuteTrail : string := String (ascii_of_N 169) "".

(** An SSE frame on the wire: the line and the blank line after it. *)
Definition wire (line : string) : string := line ++ nl ++ nl.

(** A body delivered in two reads, the first of [n] bytes. *)
Definition cutAt (n : nat) (body : string) : list string :=
  [String.substring 0 n body; String.substring n (String.length body - n) body].

(** A body that starts with a byte order mark and has U+00E9 in a token. *)
Definition accentedBody : string :=
  bom ++ wire thoughtFrame ++ wire (tokenFrame ("caf" ++ eAcuteLead ++ eAcuteTrail))
      ++ wire finalFrame.

(** The number of bytes of [accentedBody] up to the first byte of
    U+00E9, that byte included. *)
Definition insideAccent : nat :=
  String.length (bom ++ wire thoughtFrame ++ tokenFrame "caf") - 1.

(** The same events as in [accentedBody], sent without a byte order
    mark, with a comment line and without the blank lines. *)
Definition plainBody : string :=
  thoughtFrame ++ nl ++ ": ping" ++ nl
    ++ tokenFrame ("caf" ++ eAcuteLead ++ eAcuteTrail) ++ nl ++ finalFrame ++ nl.

Definition clock : Clock := mkClock 1730000000000 1730000000000 1730000000002 1730000000002.

Definition laterClock : Clock := mkClock 1730000999000 1730000999001 1730000999001 1730000999003.

Definition aid : string := id (assistantMessage (Num := RefNum) clock).

Definition inProgress : list (Message RefNum) :=
  [userMessage clock "How many rows?"; assistantMessage clock].

Definition planStep : JV :=
  JObject [("type", JString "plan"); ("content", JString "look at the schema")].

End Examples.

(** ** What the frames of a stream carry *)

Section FrameContents.
Context {Num : Type} `{RT : JSRuntime Num}.

(** The step of a [reasoning_step] line, the token of a [chat_token] line. *)
Definition stepOf (line : string) : option (JSValue Num) :=
  data ← frameData line;
  ty ← get_prop data "type";
  if strict_eq_string ty "reasoning_step" then Some (field data "step") else None.

Definition tokenOf (line : string) : option (JSValue Num) :=
  data ← frameData line;
  ty ← get_prop data "type";
  if strict_eq_string ty "chat_token" then Some (field data "content") else None.

(** [(content || '') + token], token after token. *)
Definition appendAll (tokens : list (JSValue Num)) (start : JSValue Num) : JSValue Num :=
  fold_left (fun c token => js_add (js_or c (JString "")) token) tokens start.

(** The two frames whose branch sets [isStreaming] to [false]. *)
Definition stops (line : string) : Prop :=
  hasType line "chat_done" \/ hasType line "final_result".

(** Every message that has the assistant id has stopped streaming. *)
Definition stopped (aid : string) (ms : list (Message Num)) : Prop :=
  forall i m, ms !! i = Some m -> id m = aid -> isStreaming m = Some false.

(** What a stream may do to a message: it keeps its id, type and
    timestamp, only appends reasoning steps, and leaves the message alone
    when its id is not the assistant id. *)
Definition evolves (aid : string) (before after : Message Num) : Prop :=
  id after = id before
  /\ type after = type before
  /\ timestamp after = timestamp before
  /\ (exists added,
         default [] (reasoningSteps after) = default [] (reasoningSteps before) ++ added)
  /\ (id before <> aid -> after = before).

End FrameContents.

(** The lines and the partial line put together again. *)
Fixpoint joinLines (lines : list string) (rest : string) : string :=
  match lines with
  | [] => rest
  | line :: lines' => line ++ nl ++ joinLines lines' rest
  end.

(** ** ChatInterface: what is shown, saved and scrolled *)

Section ChatInterfaceView.
Context {Num : Type} `{RT : JSRuntime Num}.

Definition isAssistant (msg : Message Num) : bool :=
  match type msg with
  | assistant => true
  | user => false
  end.

(** [[...messages].reverse().find(m => m.type === 'assistant')] *)
Definition lastAssistant (ms : list (Message Num)) : option (Message Num) :=
  List.find isAssistant (rev ms).

(** The spinner under the messages:
    [lastAssistant && lastAssistant.isStreaming]. *)
Definition showSpinner (ms : list (Message Num)) : bool :=
  match lastAssistant ms with
  | Some msg => default false (isStreaming msg)
  | None => false
  end.

(** [disabled={isLoading || !inputValue.trim()}] of the submit button. *)
Definition submitDisabled (st : State Num) : bool :=
  isLoading st || String.eqb (String_trim (inputValue st)) "".

(** The effect that saves the messages, over [JSON.stringify] as a
    parameter, and the handler of the clear button. *)
Definition saveHistory (JSON_stringify : list (Message Num) -> string)
           (ms : list (Message Num)) (store : gmap string string) : gmap string string :=
  if (0 <? length ms)%nat then <["chatHistory" := JSON_stringify ms]> store else store.

Definition clearChatHistory (st : State Num) (store : gmap string string)
  : State Num * gmap string string :=
  (mkState [] (inputValue st) (isLoading st) (error st), delete "chatHistory" store).

(** The three refs of the scroll effect. *)
Record ScrollRefs : Type := mkScrollRefs {
  prevMessageCountRef : nat;
  prevReasoningStepsRef : list nat;
  prevStreamingStatesRef : list bool
}.

(** [msg.reasoningSteps?.length || 0] and [msg.isStreaming || false] *)
Definition stepCount (msg : Message Num) : nat :=
  length (default [] (reasoningSteps msg)).

Definition streamingState (msg : Message Num) : bool :=
  default false (isStreaming msg).

(** The loop over the step counts, from index [i] on: it stops at the
    first index whose previous count is missing, zero or smaller, and asks
    for a scroll when the message there is streaming. *)
Fixpoint stepsLoop (prev : list nat) (ms : list (Message Num)) (i : nat)
         (current : list nat) : bool :=
  match current with
  | [] => false
  | c :: rest =>
      if match prev !! i with
         | None => true
         | Some p => (p =? 0)%nat || (p <? c)%nat
         end
      then match ms !! i with
           | Some msg => streamingState msg
           | None => false
           end
      else stepsLoop prev ms (S i) rest
  end.

(** The loop over the streaming states, from index [i] on: a message that
    was streaming and is not any more. *)
Fixpoint finishedLoop (prev : list bool) (i : nat) (current : list bool) : bool :=
  match current with
  | [] => false
  | c :: rest =>
      if match prev !! i with
         | Some p => p && negb c
         | None => false
         end
      then true
      else finishedLoop prev (S i) rest
  end.

(** The scroll effect: whether it schedules [scrollToBottom], and the refs
    it leaves. *)
Definition scrollEffect (initialLoadComplete : bool) (ms : list (Message Num))
           (refs : ScrollRefs) : bool * ScrollRefs :=
  if initialLoadComplete then
    let grew := (prevMessageCountRef refs <? length ms)%nat in
    let currentReasoningSteps := map stepCount ms in
    let stepped :=
      if (0 <? length currentReasoningSteps)%nat
      then stepsLoop (prevReasoningStepsRef refs) ms 0 currentReasoningSteps
      else false in
    let currentStreamingStates := map streamingState ms in
    let finished := finishedLoop (prevStreamingStatesRef refs) 0 currentStreamingStates in
    (grew || stepped || finished,
     mkScrollRefs (if grew then length ms else prevMessageCountRef refs)
                  (if (0 <? length currentReasoningSteps)%nat
                   then currentReasoningSteps else prevReasoningStepsRef refs)
                  currentStreamingStates)
  else (false, refs).

End ChatInterfaceView.

(** ** ChatMessage *)

Section ChatMessageView.
Context {Num : Type} `{RT : JSRuntime Num}.

(** The answer box, shown for [!isUser && message.content]: its text, and
    whether it has the look of a message that is still streaming. *)
Definition answerBox (msg : Message Num) : option (JSValue Num * bool) :=
  if isAssistant msg && truthy (content msg)
  then Some (content msg, default false (isStreaming msg))
  else None.

(** The SQL section, shown for a truthy [message.sqlQuery]. *)
Definition sqlSection (msg : Message Num) : option (JSValue Num) :=
  if truthy (sqlQuery msg) then Some (sqlQuery msg) else None.

End ChatMessageView.

(** ** AgentReasoning: the cards and the panel *)

Module AgentReasoningPanel.
Section AgentReasoningPanel.
Context {Num : Type} `{RT : JSRuntime Num}.

Inductive StepContent : Type :=
| ToolCall (tool input : JSValue Num)
| Text (content : JSValue Num).

(** [renderStepContent]; [None] is the [TypeError] of reading a property
    of [null] or [undefined]. *)
Definition renderStepContent (step : JSValue Num) : option StepContent :=
  ty ← get_prop step "type";
  tool ← get_prop step "tool";
  input ← get_prop step "input";
  content ← get_prop step "content";
  Some (if strict_eq_string ty "action" && is_defined tool && is_defined input
        then ToolCall tool (js_or input (JString "(empty)"))
        else Text (js_or content (JString "No content available"))).

Record PanelState : Type := mkPanelState {
  isExpanded : bool;
  prevStepCount : nat
}.

(** The two effects of the panel, in the order they are declared, for
    [validCount = validReasoningSteps.length]. *)
Definition panelEffects (isLive : bool) (validCount : nat) (s : PanelState) : PanelState :=
  let s1 :=
    if isLive && (prevStepCount s <? validCount)%nat
    then mkPanelState true validCount
    else s in
  if negb isLive then mkPanelState (isExpanded s1) validCount else s1.

End AgentReasoningPanel.
End AgentReasoningPanel.

(** ** More concrete states *)

Module MoreExamples.
Import RefRuntime Examples.

(** The exchange of [inProgress] once the answer is complete. *)
Definition answered : list (Message RefNum) :=
  [userMessage clock "How many rows?"; stopStreaming (assistantMessage clock)].

(** The same exchange with a first reasoning step. *)
Definition reasoning : list (Message RefNum) :=
  [userMessage clock "How many rows?"; addReasoningStep planStep (assistantMessage clock)].

(** A stored history of two entries, and stores that hold a history next
    to another key. *)
Definition storedHistory : string :=
  String.append "[" (String.append (object [("id", q "1"); ("timestamp", q "t")]) ",7]").

(** A stored history whose only entry has a timestamp that [new Date]
    cannot make a primitive of. *)
Definition stubbornHistory : string :=
  String.append "[" (String.append
    (object [("timestamp", object [("toString", "0")])]) "]").

Definition themedStore (history : string) : gmap string string :=
  {["chatHistory" := history; "theme" := "dark"]}.

End MoreExamples.

(** * Properties *)

(** ** Line buffering *)

Lemma split_newline_nonempty (s : string) : split_newline s <> [].
Proof.
  destruct s as [|c rest]; simpl; [discriminate|].
  destruct (Ascii.eqb c newline); [discriminate|].
  destruct (split_newline rest); discriminate.
Qed.

Lemma removelast_cons_nonempty {A} (x : A) (l : list A) :
  l <> [] -> removelast (x :: l) = x :: removelast l.
Proof. destruct l; [congruence | reflexivity]. Qed.

Lemma last_cons_nonempty {A} (x : A) (l : list A) :
  l <> [] -> last (x :: l) = last l.
Proof. destruct l; [congruence | reflexivity]. Qed.

Lemma string_app_cons (x : ascii) (a b : string) :
  String x a +:+ b = String x (a +:+ b).
Proof. reflexivity. Qed.

Lemma string_app_assoc (a b c : string) : (a +:+ b) +:+ c = a +:+ (b +:+ c).
Proof.
  induction a as [|x a IH]; [reflexivity|].
  rewrite !string_app_cons. now rewrite IH.
Qed.

Lemma string_app_empty_r (a : string) : a +:+ "" = a.
Proof.
  induction a as [|x a IH]; [reflexivity|].
  rewrite string_app_cons. now rewrite IH.
Qed.

(** Splitting a text that continues: the complete lines of the first part
    stay, and its partial line is continued by the second part. *)
Lemma split_newline_app (a b : string) :
  split_newline (a +:+ b)
  = removelast (split_newline a) ++ split_newline (partialLine a +:+ b).
Proof.
  unfold partialLine.
  induction a as [|c a IH]; [reflexivity|].
  pose proof (split_newline_nonempty a) as Hne.
  rewrite string_app_cons. cbn [split_newline].
  destruct (Ascii.eqb c newline) eqn:Ec.
  - rewrite removelast_cons_nonempty, last_cons_nonempty by assumption.
    rewrite IH. reflexivity.
  - rewrite IH. destruct (split_newline a) as [|p [|p' ps]]; [congruence| |].
    + change (default "" (last [String c p]) +:+ b) with (String c (p +:+ b)).
      cbn [split_newline]. rewrite Ec. reflexivity.
    + reflexivity.
Qed.

Lemma partialLine_no_newline (s : string) :
  split_newline (partialLine s) = [partialLine s].
Proof.
  unfold partialLine.
  induction s as [|c s IH]; [reflexivity|].
  pose proof (split_newline_nonempty s) as Hne.
  cbn [split_newline].
  destruct (Ascii.eqb c newline) eqn:Ec.
  - rewrite last_cons_nonempty by assumption. exact IH.
  - destruct (split_newline s) as [|p [|p' ps]]; [congruence| |].
    + cbn in IH |- *. rewrite Ec, IH. reflexivity.
    + exact IH.
Qed.

Lemma partialLine_fixed (buffer : string) :
  split_newline buffer = [buffer] -> partialLine buffer = buffer.
Proof. intros H. unfold partialLine. now rewrite H. Qed.

Lemma completeLines_app (a b : string) :
  completeLines (a +:+ b) = completeLines a ++ completeLines (partialLine a +:+ b).
Proof.
  unfold completeLines. rewrite split_newline_app.
  apply removelast_app, split_newline_nonempty.
Qed.

Lemma partialLine_app (a b : string) :
  partialLine (a +:+ b) = partialLine (partialLine a +:+ b).
Proof.
  unfold partialLine at 1 2. rewrite split_newline_app.
  pose proof (split_newline_nonempty (partialLine a +:+ b)) as Hne.
  destruct (split_newline (partialLine a +:+ b)) as [|p ps] eqn:E; [congruence|].
  rewrite last_app. rewrite <- E.
  destruct (last (split_newline (partialLine a +:+ b))) eqn:El; [reflexivity|].
  rewrite E in El. apply last_None in El. congruence.
Qed.

Section Buffering.
Context {Num : Type} `{RT : JSRuntime Num}.
Implicit Types (ms : list (Message Num)) (reads : list string).

(** The lines handed over read by read are the complete lines of the
    text received so far. *)
Lemma linesOfReads_complete reads (buffer : string) :
  split_newline buffer = [buffer] ->
  concat (linesOfReads reads buffer) = completeLines (buffer +:+ streamOf reads).
Proof.
  revert buffer. induction reads as [|value rest IH]; intros buffer Hb.
  - cbn. rewrite string_app_empty_r. unfold completeLines. now rewrite Hb.
  - cbn [linesOfReads nextLines streamOf fold_right concat].
    fold (streamOf rest). fold (completeLines (buffer +:+ value)).
    fold (partialLine (buffer +:+ value)).
    rewrite IH by apply partialLine_no_newline.
    rewrite <- string_app_assoc. symmetry. apply completeLines_app.
Qed.

(** The buffer that the loop is left with is the partial line. *)
Lemma readTexts_buffer (aid : string) reads (buffer : string) ms :
  split_newline buffer = [buffer] ->
  snd (readTexts aid reads buffer ms) = partialLine (buffer +:+ streamOf reads).
Proof.
  revert buffer ms. induction reads as [|value rest IH]; intros buffer ms Hb.
  - cbn. rewrite string_app_empty_r. symmetry. now apply partialLine_fixed.
  - cbn [readTexts nextLines streamOf fold_right].
    fold (streamOf rest). fold (partialLine (buffer +:+ value)).
    rewrite IH by apply partialLine_no_newline.
    rewrite <- string_app_assoc. symmetry. apply partialLine_app.
Qed.

(** The loop runs the [for] loop once per read, on the lines of that read. *)
Lemma readTexts_messages (aid : string) reads (buffer : string) ms :
  fst (readTexts aid reads buffer ms)
  = fold_left (fun acc lines => messages_of (forLines aid lines acc))
              (linesOfReads reads buffer) ms.
Proof.
  revert buffer ms. induction reads as [|value rest IH]; intros buffer ms.
  - reflexivity.
  - cbn [readTexts linesOfReads nextLines fold_left]. apply IH.
Qed.

Lemma readTexts_app (aid : string) reads1 reads2 (buffer : string) ms :
  readTexts aid (reads1 ++ reads2) buffer ms
  = readTexts aid reads2 (snd (readTexts aid reads1 buffer ms))
             (fst (readTexts aid reads1 buffer ms)).
Proof.
  revert buffer ms. induction reads1 as [|value rest IH]; intros buffer ms.
  - reflexivity.
  - cbn [app readTexts nextLines]. apply IH.
Qed.

(** The read loop is the loop over the decoded texts. *)
Lemma readLoop_texts (aid : string) reads (decoder : Decoder) (buffer : string) ms :
  readLoop aid reads decoder buffer ms
  = readTexts aid (decodeReads decoder reads) buffer ms.
Proof.
  revert decoder buffer ms.
  induction reads as [|value rest IH]; intros decoder buffer ms; [reflexivity|].
  cbn [readLoop decodeReads]. destruct (decode decoder value) as [text decoder'].
  cbn [readTexts]. destruct (nextLines buffer text) as [lines buffer']. apply IH.
Qed.

Lemma decodeReads_app (decoder : Decoder) reads1 reads2 :
  decodeReads decoder (reads1 ++ reads2)
  = decodeReads decoder reads1 ++ decodeReads (decoderAfter decoder reads1) reads2.
Proof.
  revert decoder. induction reads1 as [|value rest IH]; intros decoder; [reflexivity|].
  cbn [app decodeReads decoderAfter]. destruct (decode decoder value) as [text decoder'].
  cbn [snd app]. now rewrite IH.
Qed.

(** The decoder takes the bytes one by one, so what comes out of a stream
    does not depend on where the reads cut it. *)
Lemma decode_app (decoder : Decoder) (a b : string) :
  decode decoder (a +:+ b)
  = (fst (decode decoder a) +:+ fst (decode (snd (decode decoder a)) b),
     snd (decode (snd (decode decoder a)) b)).
Proof.
  revert decoder. induction a as [|c a IH]; intros decoder.
  - change ("" +:+ b) with b. cbn [decode fst snd].
    change ("" +:+ fst (decode decoder b)) with (fst (decode decoder b)).
    now destruct (decode decoder b).
  - rewrite string_app_cons. cbn [decode].
    destruct (decode_byte decoder c) as [out decoder'].
    rewrite IH. destruct (decode decoder' a) as [outs decoder''].
    cbn [fst snd]. now rewrite string_app_assoc.
Qed.

Lemma decodeReads_stream (decoder : Decoder) reads :
  streamOf (decodeReads decoder reads) = fst (decode decoder (streamOf reads))
  /\ decoderAfter decoder reads = snd (decode decoder (streamOf reads)).
Proof.
  revert decoder. induction reads as [|value rest IH]; intros decoder; [split; reflexivity|].
  cbn [decodeReads decoderAfter streamOf fold_right]. fold (streamOf rest).
  rewrite decode_app. destruct (decode decoder value) as [text decoder'].
  cbn [fst snd fold_right]. fold (streamOf (decodeReads decoder' rest)).
  destruct (IH decoder') as [-> ->]. split; reflexivity.
Qed.

Lemma textOf_stream reads1 reads2 :
  streamOf reads1 = streamOf reads2 -> textOf reads1 = textOf reads2.
Proof.
  intros H. unfold textOf.
  change (streamOf (decodeReads TextDecoder_new reads1)
          = streamOf (decodeReads TextDecoder_new reads2)).
  now rewrite !(proj1 (decodeReads_stream _ _)), H.
Qed.

Lemma linesHandedOver_complete reads :
  concat (linesHandedOver reads) = completeLines (textOf reads).
Proof.
  unfold linesHandedOver. rewrite linesOfReads_complete by reflexivity. reflexivity.
Qed.

Lemma readLoop_buffer (aid : string) reads ms :
  snd (readLoop aid reads TextDecoder_new "" ms) = partialLine (textOf reads).
Proof. rewrite readLoop_texts, readTexts_buffer by reflexivity. reflexivity. Qed.

Lemma readLoop_app (aid : string) reads1 reads2 (decoder : Decoder) (buffer : string) ms :
  readLoop aid (reads1 ++ reads2) decoder buffer ms
  = readLoop aid reads2 (decoderAfter decoder reads1)
             (snd (readLoop aid reads1 decoder buffer ms))
             (fst (readLoop aid reads1 decoder buffer ms)).
Proof. rewrite !readLoop_texts, decodeReads_app. apply readTexts_app. Qed.

End Buffering.

(** ** The dispatch on frames *)

Section Dispatch.
Context {Num : Type} `{RT : JSRuntime Num}.
Implicit Types (ms : list (Message Num)) (m : Message Num).

Lemma updateAssistant_same (aid : string) ms :
  updateAssistant aid (fun m : Message Num => m) ms = ms.
Proof.
  unfold updateAssistant. induction ms as [|m ms IH]; [reflexivity|].
  cbn. rewrite IH. now destruct (String.eqb (id m) aid).
Qed.

Lemma updateAssistant_lookup (aid : string) f ms (i : nat) :
  updateAssistant aid f ms !! i
  = (fun m => if String.eqb (id m) aid then f m else m) <$> (ms !! i).
Proof.
  unfold updateAssistant. revert i. induction ms as [|m ms IH]; intros [|i]; cbn; auto.
Qed.

Lemma updateAssistant_length (aid : string) f ms :
  length (updateAssistant aid f ms) = length ms.
Proof. apply length_map. Qed.

Lemma wellBehaved_same : wellBehaved (fun m : Message Num => m).
Proof. repeat split; auto. now left. Qed.

Lemma wellBehaved_addReasoningStep (step : JSValue Num) : wellBehaved (addReasoningStep step).
Proof.
  repeat split; auto; [now left|].
  intros m m' H. unfold observable in *. cbn. congruence.
Qed.

Lemma wellBehaved_appendToken (token : JSValue Num) : wellBehaved (appendToken token).
Proof.
  repeat split; auto; [now left|].
  intros m m' H. unfold observable in *. cbn. congruence.
Qed.

Lemma wellBehaved_stopStreaming : wellBehaved (@stopStreaming Num).
Proof.
  repeat split; auto; [now right|].
  intros m m' H. unfold observable in *. cbn. congruence.
Qed.

Lemma wellBehaved_applyFinalResult (a b c d e : JSValue Num) :
  wellBehaved (applyFinalResult a b c d e).
Proof.
  repeat split; auto; [now right|].
  intros m m' H. unfold observable in *. cbn. congruence.
Qed.

Lemma wellBehaved_applyFailure (msg : string) : wellBehaved (@applyFailure Num msg).
Proof.
  repeat split; auto; [now right|].
  intros m m' H. unfold observable in *. cbn. congruence.
Qed.

(** What a line does is an update of the assistant message that depends
    on the line alone, followed or not by leaving the [for] loop. *)
Lemma handleLine_shape (line : string) :
  exists (f : Message Num -> Message Num) (brk : bool),
    wellBehaved f
    /\ forall aid ms,
        handleLine aid line ms
        = (if brk then Exit else Continue) (updateAssistant aid f ms).
Proof.
  unfold handleLine, tryBlock.
  destruct (startsWith "data: " line);
    [|exists (fun m => m), false; split; [apply wellBehaved_same|];
      intros; now rewrite updateAssistant_same].
  destruct (JSON_parse (slice 6 line)) as [data|];
    [|exists (fun m => m), false; split; [apply wellBehaved_same|];
      intros; now rewrite updateAssistant_same].
  destruct (get_prop data "type") as [ty|];
    [|exists (fun m => m), false; split; [apply wellBehaved_same|];
      intros; now rewrite updateAssistant_same].
  destruct (strict_eq_string ty "reasoning_step").
  { eexists _, false. split; [apply wellBehaved_addReasoningStep|reflexivity]. }
  destruct (strict_eq_string ty "chat_token").
  { eexists _, false. split; [apply wellBehaved_appendToken|reflexivity]. }
  destruct (strict_eq_string ty "chat_done").
  { eexists _, false. split; [apply wellBehaved_stopStreaming|reflexivity]. }
  destruct (strict_eq_string ty "final_result").
  { eexists _, true. split; [apply wellBehaved_applyFinalResult|reflexivity]. }
  destruct (strict_eq_string ty "error");
    exists (fun m => m), false; (split; [apply wellBehaved_same|]);
    intros; now rewrite updateAssistant_same.
Qed.

End Dispatch.

Section Frames.
Context {Num : Type} `{RT : JSRuntime Num}.
Implicit Types (ms : list (Message Num)) (m : Message Num).

Lemma strict_eq_string_true (v : JSValue Num) (s : string) :
  strict_eq_string v s = true -> v = JString s.
Proof.
  destruct v; cbn; try discriminate. intros H%String.eqb_eq. now subst.
Qed.

Lemma strict_eq_string_false (v : JSValue Num) (s : string) :
  v <> JString s -> strict_eq_string v s = false.
Proof.
  intros H. destruct (strict_eq_string v s) eqn:E; [|reflexivity].
  now apply strict_eq_string_true in E.
Qed.

(** [handleLine] in terms of the parsed payload of the line. *)
Lemma handleLine_no_data (aid line : string) ms :
  frameData line = None -> handleLine aid line ms = Continue ms.
Proof.
  unfold frameData, handleLine, tryBlock.
  destruct (startsWith "data: " line); [|reflexivity].
  now intros ->.
Qed.

Lemma handleLine_no_type (aid line : string) ms :
  frameType line = None -> handleLine aid line ms = Continue ms.
Proof.
  unfold frameType, frameData, handleLine, tryBlock.
  destruct (startsWith "data: " line); [|reflexivity].
  destruct (JSON_parse (slice 6 line)) as [data|]; [|reflexivity].
  cbn. now intros ->.
Qed.

Lemma handleLine_data (aid line : string) (data ty : JSValue Num) ms :
  frameData line = Some data -> get_prop data "type" = Some ty ->
  handleLine aid line ms
  = if strict_eq_string ty "reasoning_step" then
      Continue (updateAssistant aid (addReasoningStep (field data "step")) ms)
    else if strict_eq_string ty "chat_token" then
      Continue (updateAssistant aid (appendToken (field data "content")) ms)
    else if strict_eq_string ty "chat_done" then
      Continue (updateAssistant aid stopStreaming ms)
    else if strict_eq_string ty "final_result" then
      Exit (updateAssistant aid
              (applyFinalResult (field data "summary") (field data "answer")
                 (field data "sql_query") (field data "query_results")
                 (field data "columns")) ms)
    else Continue ms.
Proof.
  unfold frameData, handleLine, tryBlock.
  destruct (startsWith "data: " line); [|discriminate].
  intros -> ->.
  repeat (match goal with |- context [if ?b then _ else _] => destruct b end;
          try reflexivity).
Qed.

Lemma hasType_data (line ty : string) :
  hasType line ty ->
  exists data, frameData line = Some data /\ get_prop data "type" = Some (JString ty).
Proof.
  unfold hasType, frameType. destruct (frameData line) as [data|]; [|discriminate].
  cbn. eauto.
Qed.

(** Only a [final_result] frame leaves the [for] loop. *)
Lemma handleLine_Exit (aid line : string) ms ms' :
  handleLine aid line ms = Exit ms' -> hasType line "final_result".
Proof.
  unfold hasType. destruct (frameType line) as [ty|] eqn:Ety;
    [|now rewrite handleLine_no_type].
  unfold frameType in Ety. destruct (frameData line) as [data|] eqn:Ed; [|discriminate].
  cbn in Ety. rewrite (handleLine_data _ _ _ _ _ Ed Ety).
  destruct (strict_eq_string ty "reasoning_step"); [discriminate|].
  destruct (strict_eq_string ty "chat_token"); [discriminate|].
  destruct (strict_eq_string ty "chat_done"); [discriminate|].
  destruct (strict_eq_string ty "final_result") eqn:E; [|discriminate].
  intros _. f_equal. now apply strict_eq_string_true.
Qed.

Lemma forLines_app (aid : string) (before after : list string) ms :
  forLines aid (before ++ after) ms
  = match forLines aid before ms with
    | Continue ms' => forLines aid after ms'
    | Exit ms' => Exit ms'
    end.
Proof.
  revert ms. induction before as [|line rest IH]; intros ms; [reflexivity|].
  cbn. destruct (handleLine aid line ms); [apply IH | reflexivity].
Qed.

Lemma forLines_ignored (aid : string) (lines : list string) ms :
  Forall (ignored aid) lines -> forLines aid lines ms = Continue ms.
Proof.
  induction 1 as [|line rest Hline _ IH]; [reflexivity|].
  cbn. now rewrite Hline.
Qed.

End Frames.

Import RefRuntime Examples.

(** ** The validity of reasoning steps *)

Section StepValidity.
Context {Num : Type} `{RT : JSRuntime Num}.
Import AgentReasoning.

(** C3, as amended.  A step passes [isValidStep] exactly when it is an
    object whose [type] is a non-empty string and which has both [tool]
    and [input] when the type is [action], and [content] for every other
    type, one of the three known kinds or not; the filter keeps exactly
    the steps that pass, so a step of an unknown kind that has a content
    is kept and rendered. *)
Theorem isValidStep_accepts (step : JSValue Num) (steps : list (JSValue Num)) :
  (isValidStep step = true <->
   exists props ty,
     step = JObject props
     /\ lookup_prop "type" props = Some (JString ty)
     /\ ty <> ""
     /\ if String.eqb ty "action"
        then is_defined (field step "tool") = true
             /\ is_defined (field step "input") = true
        else is_defined (field step "content") = true)
  /\ (step ∈ validReasoningSteps steps <-> step ∈ steps /\ isValidStep step = true).
Proof.
  split.
  - unfold isValidStep, field. split.
    + destruct step as [| | | | |elems|props]; cbn; try discriminate;
        try (destruct b; discriminate);
        try (destruct (Number_truthy n); discriminate);
        try (destruct (negb (String.eqb s "")); discriminate).
      destruct (lookup_prop "type" props) as [ty|] eqn:Ety; cbn; [|discriminate].
      destruct ty as [| | | |ty| |]; cbn; try discriminate;
        try (destruct b; discriminate);
        try (destruct (Number_truthy n); discriminate).
      destruct (String.eqb ty "") eqn:Eempty; cbn; [discriminate|].
      apply String.eqb_neq in Eempty.
      intros H. exists props, ty. repeat split; auto.
      destruct (String.eqb ty "action"); [now apply andb_true_iff in H | exact H].
    + intros (props & ty & -> & Hty & Hne & H). cbn. rewrite Hty. cbn.
      apply String.eqb_neq in Hne. rewrite Hne. cbn.
      destruct (String.eqb ty "action"); cbn in H |- *;
        [apply andb_true_iff; exact H | exact H].
  - unfold validReasoningSteps. rewrite list_elem_of_filter. tauto.
Qed.

End StepValidity.

(** C3, counterexample: a step of kind [plan] passes the check, is kept by
    the filter and gets a card labelled with its kind. *)
Lemma unknown_kind_accepted :
  get_prop planStep "type" = Some (JString "plan")
  /\ ~ AgentReasoning.known_kind "plan"
  /\ AgentReasoning.isValidStep planStep = true
  /\ AgentReasoning.validReasoningSteps [planStep] = [planStep]
  /\ AgentReasoning.renderedLabels [planStep] = ["plan"].
Proof.
  repeat split; try reflexivity.
  intros [H|[H|H]]; discriminate.
Qed.

(** ** Frames that are skipped, frames that finish *)

Section Skipping.
Context {Num : Type} `{RT : JSRuntime Num}.
Implicit Types (ms : list (Message Num)) (m : Message Num).

Lemma nextLines_insert_line (buffer a bad b : string) :
  split_newline bad = [bad] ->
  partialLine (buffer +:+ a) = "" ->
  nextLines buffer (a +:+ (bad +:+ nl) +:+ b)
  = (completeLines (buffer +:+ a) ++ bad :: fst (nextLines "" b), snd (nextLines "" b))
  /\ nextLines buffer (a +:+ b)
     = (completeLines (buffer +:+ a) ++ fst (nextLines "" b), snd (nextLines "" b)).
Proof.
  intros Hbad Hline.
  assert (Hsplit : forall rest,
             split_newline (buffer +:+ a +:+ rest)
             = completeLines (buffer +:+ a) ++ split_newline rest).
  { intros rest. rewrite <- string_app_assoc, split_newline_app, Hline. reflexivity. }
  assert (Hb : split_newline ((bad +:+ nl) +:+ b) = bad :: split_newline b).
  { rewrite split_newline_app.
    assert (Hnl : forall s, split_newline s = [s] -> split_newline (s +:+ nl) = [s; ""]).
    { clear. induction s as [|c s IH]; [reflexivity|].
      rewrite string_app_cons. cbn [split_newline].
      pose proof (split_newline_nonempty s) as Hne.
      destruct (Ascii.eqb c newline); [intros [=]; congruence|].
      destruct (split_newline s) as [|p [|p' ps]] eqn:E; [congruence| |discriminate].
      intros [= ->]. now rewrite IH. }
    unfold partialLine. rewrite (Hnl _ Hbad). reflexivity. }
  unfold nextLines. cbn [fst snd]. change ("" +:+ b) with b. split.
  - rewrite Hsplit, Hb. f_equal.
    + rewrite removelast_app by discriminate.
      now rewrite removelast_cons_nonempty by apply split_newline_nonempty.
    + rewrite last_app, last_cons_nonempty by apply split_newline_nonempty.
      destruct (last (split_newline b)) eqn:E; [reflexivity|].
      apply last_None in E. now apply split_newline_nonempty in E.
  - rewrite Hsplit. f_equal.
    + now rewrite removelast_app by apply split_newline_nonempty.
    + rewrite last_app.
      destruct (last (split_newline b)) eqn:E; [reflexivity|].
      apply last_None in E. now apply split_newline_nonempty in E.
Qed.

(** C4.  A [data: ] line whose payload does not parse is skipped: it
    leaves the messages as they are, and the lines after it in the same
    read are handled as if it were not there.  The valid frames that
    follow are applied as they are without it: after any number of such
    lines, a reasoning step is added, a token is appended and [chat_done]
    stops the streaming, each time going on with the lines that follow,
    and a [final_result] is applied and leaves the loop.  A stream whose
    decoded text has such a line put in at a line boundary ends in the
    same messages and buffer as the stream without it. *)
Theorem malformed_frame_skipped (aid bad : string) (ms : list (Message Num)) :
  startsWith "data: " bad = true ->
  JSON_parse (slice 6 bad) = None ->
  handleLine aid bad ms = Continue ms
  /\ (forall before after ms0,
         forLines aid (before ++ bad :: after) ms0 = forLines aid (before ++ after) ms0)
  /\ (forall n line data rest ms0,
         frameData line = Some data ->
         (hasType line "reasoning_step" ->
          forLines aid (replicate n bad ++ line :: rest) ms0
          = forLines aid rest
              (updateAssistant aid (addReasoningStep (field data "step")) ms0))
         /\ (hasType line "chat_token" ->
             forLines aid (replicate n bad ++ line :: rest) ms0
             = forLines aid rest
                 (updateAssistant aid (appendToken (field data "content")) ms0))
         /\ (hasType line "chat_done" ->
             forLines aid (replicate n bad ++ line :: rest) ms0
             = forLines aid rest (updateAssistant aid stopStreaming ms0))
         /\ (hasType line "final_result" ->
             forLines aid (replicate n bad ++ line :: rest) ms0
             = Exit (updateAssistant aid
                       (applyFinalResult (field data "summary") (field data "answer")
                          (field data "sql_query") (field data "query_results")
                          (field data "columns")) ms0)))
  /\ (forall reads reads' earlier a b later ms0,
         split_newline bad = [bad] ->
         partialLine (streamOf earlier +:+ a) = "" ->
         decodeReads TextDecoder_new reads
         = earlier ++ (a +:+ (bad +:+ nl) +:+ b) :: later ->
         decodeReads TextDecoder_new reads' = earlier ++ (a +:+ b) :: later ->
         readLoop aid reads TextDecoder_new "" ms0
         = readLoop aid reads' TextDecoder_new "" ms0).
Proof.
  intros Hdata Hparse.
  assert (Hskip : forall ms0, handleLine aid bad ms0 = Continue ms0).
  { intros ms0. apply handleLine_no_data. unfold frameData. now rewrite Hdata. }
  split; [apply Hskip|]. split; [|split].
  - intros before after ms0. rewrite !forLines_app.
    destruct (forLines aid before ms0); [|reflexivity].
    cbn. now rewrite Hskip.
  - intros n line data rest ms0 Hline.
    assert (Hty : forall ty, hasType line ty -> get_prop data "type" = Some (JString ty)).
    { intros ty H. destruct (hasType_data _ _ H) as (data' & Hdata' & Htype). congruence. }
    assert (Hbads : forLines aid (replicate n bad ++ line :: rest) ms0
                    = forLines aid (line :: rest) ms0).
    { induction n as [|n IH]; [reflexivity|].
      cbn [replicate app forLines]. now rewrite Hskip. }
    rewrite Hbads.
    repeat split; intros H; apply Hty in H;
      cbn [forLines]; rewrite (handleLine_data _ _ _ _ _ Hline H);
      reflexivity.
  - intros reads reads' earlier a b later ms0 Hbad Hline Hreads Hreads'.
    rewrite !readLoop_texts, Hreads, Hreads'.
    rewrite !readTexts_app.
    set (ms1 := fst (readTexts aid earlier "" ms0)).
    assert (Hbuf : snd (readTexts aid earlier "" ms0) = partialLine (streamOf earlier)).
    { now rewrite readTexts_buffer. }
    rewrite Hbuf.
    assert (Hline' : partialLine (partialLine (streamOf earlier) +:+ a) = "").
    { now rewrite <- partialLine_app. }
    destruct (nextLines_insert_line _ a bad b Hbad Hline') as [E1 E2].
    cbn [readTexts]. rewrite E1, E2.
    rewrite !forLines_app.
    destruct (forLines aid (completeLines (partialLine (streamOf earlier) +:+ a)) ms1);
      [|reflexivity].
    cbn [forLines]. now rewrite Hskip.
Qed.

(** An [error] frame is thrown and caught inside the inner [try]: with
    every runtime it leaves the messages as they are. *)
Lemma error_frame_ignored (aid line : string) (ms : list (Message Num)) :
  hasType line "error" -> handleLine aid line ms = Continue ms.
Proof.
  intros Hty. destruct (hasType_data _ _ Hty) as (data & Hdata & Htype).
  now rewrite (handleLine_data _ _ _ _ _ Hdata Htype).
Qed.

(** C10.  A line that parses and whose [type] is none of the five types
    of the protocol changes nothing: the messages after it are the
    messages before it, field for field. *)
Theorem unrecognised_type_ignored (aid line : string) (ty : JSValue Num)
        (ms : list (Message Num)) :
  frameType line = Some ty ->
  Forall (fun known => ty <> JString known)
         ["reasoning_step"; "chat_token"; "chat_done"; "final_result"; "error"] ->
  handleLine aid line ms = Continue ms.
Proof.
  intros Hty Hnone.
  unfold frameType in Hty. destruct (frameData line) as [data|] eqn:Ed; [|discriminate].
  cbn in Hty. rewrite (handleLine_data _ _ _ _ _ Ed Hty).
  repeat match goal with
         | H : Forall _ (_ :: _) |- _ => apply Forall_cons in H; destruct H
         end.
  rewrite !strict_eq_string_false by assumption. reflexivity.
Qed.

(** C6, as amended.  A [final_result] frame leaves the [for] loop and
    gives every message that has the assistant id: as content the
    [summary] of the frame, or its [answer] when the summary is missing
    or empty; the frame's [sql_query], [query_results] and [columns]
    ([undefined] for a key the frame does not have); and
    [isStreaming = false].  The other fields and the other messages stay. *)
Theorem final_result_applied (aid line : string) (data : JSValue Num)
        (ms : list (Message Num)) :
  frameData line = Some data ->
  hasType line "final_result" ->
  exists ms',
    handleLine aid line ms = Exit ms'
    /\ length ms' = length ms
    /\ forall i m, ms !! i = Some m ->
         exists m', ms' !! i = Some m'
           /\ if String.eqb (id m) aid then
                content m' = (if truthy (field data "summary")
                              then field data "summary" else field data "answer")
                /\ sqlQuery m' = field data "sql_query"
                /\ (forall props, data = JObject props ->
                                  lookup_prop "sql_query" props = None ->
                                  sqlQuery m' = JUndefined)
                /\ queryResults m' = field data "query_results"
                /\ columns m' = field data "columns"
                /\ isStreaming m' = Some false
                /\ id m' = id m /\ type m' = type m
                /\ reasoningSteps m' = reasoningSteps m
                /\ timestamp m' = timestamp m
              else m' = m.
Proof.
  intros Hdata Hty.
  destruct (hasType_data _ _ Hty) as (data' & Hdata' & Htype).
  assert (data' = data) by congruence. subst data'.
  rewrite (handleLine_data _ _ _ _ _ Hdata Htype). cbn.
  eexists. split; [reflexivity|]. split; [apply updateAssistant_length|].
  intros i m Hm. rewrite updateAssistant_lookup, Hm. cbn.
  eexists. split; [reflexivity|].
  destruct (String.eqb (id m) aid); [|reflexivity].
  cbn. unfold js_or. repeat split.
  intros props -> Hnone. unfold field. cbn. now rewrite Hnone.
Qed.

(** C2, as amended.  While the decoded stream brings no [chat_done],
    [final_result] or [error] frame, [isStreaming] is what it was for
    every message: reasoning steps, answer tokens, lines that do not
    parse and frames of an unknown type do not touch it. *)
Theorem isStreaming_kept (aid : string) (reads : list string)
        (ms : list (Message Num)) :
  Forall quiet (completeLines (textOf reads)) ->
  map isStreaming (fst (readLoop aid reads TextDecoder_new "" ms)) = map isStreaming ms.
Proof.
  assert (Hline : forall line ms0,
             quiet line ->
             map isStreaming (messages_of (handleLine aid line ms0))
             = map isStreaming ms0
             /\ exists ms1, handleLine aid line ms0 = Continue ms1).
  { intros line ms0 (Hdone & Hfinal & Herror).
    assert (Hkeep : forall f, (forall m, isStreaming (f m) = isStreaming m) ->
               map isStreaming (updateAssistant aid f ms0) = map isStreaming ms0).
    { intros f Hf. unfold updateAssistant. rewrite map_map. apply map_ext.
      intros m. now destruct (String.eqb (id m) aid). }
    unfold hasType in *.
    destruct (frameType line) as [ty|] eqn:Ety;
      [|rewrite handleLine_no_type by assumption; eauto].
    unfold frameType in Ety.
    destruct (frameData line) as [data|] eqn:Ed; [|discriminate].
    cbn in Ety. rewrite (handleLine_data _ _ _ _ _ Ed Ety).
    destruct (strict_eq_string ty "reasoning_step"); [split; eauto; now apply Hkeep|].
    destruct (strict_eq_string ty "chat_token"); [split; eauto; now apply Hkeep|].
    destruct (strict_eq_string ty "chat_done") eqn:E1;
      [apply strict_eq_string_true in E1; congruence|].
    destruct (strict_eq_string ty "final_result") eqn:E2;
      [apply strict_eq_string_true in E2; congruence|].
    eauto. }
  assert (Hlines : forall lines ms0,
             Forall quiet lines ->
             map isStreaming (messages_of (forLines aid lines ms0))
             = map isStreaming ms0).
  { induction lines as [|line rest IH]; intros ms0 Hq; [reflexivity|].
    apply Forall_cons in Hq as [Hq Hrest].
    destruct (Hline line ms0 Hq) as [Hmap [ms1 E]].
    cbn. rewrite E in Hmap |- *. cbn in Hmap. rewrite IH by assumption. exact Hmap. }
  intros Hquiet.
  rewrite readLoop_texts, readTexts_messages.
  rewrite <- linesHandedOver_complete in Hquiet. unfold linesHandedOver in Hquiet.
  revert ms Hquiet. generalize (linesOfReads (decodeReads TextDecoder_new reads) "").
  induction l as [|lines rest IH]; intros ms Hq; [reflexivity|].
  cbn in Hq. apply Forall_app in Hq as [Hq Hrest].
  cbn. rewrite IH by assumption. now apply Hlines.
Qed.

End Skipping.

Lemma malformed_frame_skipped_witness :
  handleLine aid corruptFrame inProgress = Continue inProgress
  /\ forLines aid [thoughtFrame; corruptFrame; finalFrame] inProgress
     = forLines aid [thoughtFrame; finalFrame] inProgress
  /\ forLines aid [corruptFrame; corruptFrame; tokenFrame "Result"; chatDoneFrame]
              inProgress
     = Continue [userMessage clock "How many rows?";
                 stopStreaming (appendToken (JString "Result") (assistantMessage clock))]
  /\ forLines aid [corruptFrame; finalFrame; tokenFrame "late"] inProgress
     = Exit [userMessage clock "How many rows?";
             applyFinalResult (JString "Result is 1") JUndefined JUndefined
               (JArray [JArray [JNumber (RInt 1)]]) (JArray [JString "n"])
               (assistantMessage clock)]
  /\ readLoop aid [bom +:+ wire thoughtFrame;
                   wire (tokenFrame "Result") +:+ wire corruptFrame +:+ wire finalFrame]
              TextDecoder_new "" inProgress
     = readLoop aid [bom +:+ wire thoughtFrame;
                     wire (tokenFrame "Result") +:+ nl +:+ wire finalFrame]
                TextDecoder_new "" inProgress.
Proof.
  destruct (malformed_frame_skipped aid corruptFrame inProgress) as (H1 & H2 & H3 & H4).
  - vm_compute. reflexivity.
  - vm_compute. reflexivity.
  - split; [exact H1|]. split; [exact (H2 [thoughtFrame] [finalFrame] inProgress)|].
    split; [|split].
    + destruct (H3 2%nat (tokenFrame "Result")
                   (JObject [("type", JString "chat_token"); ("content", JString "Result")])
                   [chatDoneFrame] inProgress) as (_ & Htoken & _).
      * vm_compute. reflexivity.
      * cbn [replicate app] in Htoken.
        rewrite Htoken by (vm_compute; reflexivity). vm_compute. reflexivity.
    + destruct (H3 1%nat finalFrame
                   (JObject [("type", JString "final_result");
                             ("summary", JString "Result is 1");
                             ("query_results", JArray [JArray [JNumber (RInt 1)]]);
                             ("columns", JArray [JString "n"])])
                   [tokenFrame "late"] inProgress) as (_ & _ & _ & Hfinal).
      * vm_compute. reflexivity.
      * cbn [replicate app] in Hfinal.
        rewrite Hfinal by (vm_compute; reflexivity). vm_compute. reflexivity.
    + apply (H4 _ _ [wire thoughtFrame] (wire (tokenFrame "Result"))
                (nl +:+ wire finalFrame) [] inProgress).
      * vm_compute. reflexivity.
      * vm_compute. reflexivity.
      * vm_compute. reflexivity.
      * vm_compute. reflexivity.
Defined.

Lemma unrecognised_type_ignored_witness :
  handleLine aid heartbeatFrame inProgress = Continue inProgress.
Proof.
  apply (unrecognised_type_ignored aid heartbeatFrame (JString "heartbeat")).
  - vm_compute. reflexivity.
  - repeat constructor; discriminate.
Defined.

(** C6, counterexample: a [final_result] frame whose [summary] is the
    empty string and whose [answer] is not: the content becomes the
    answer, not the summary. *)
Lemma final_result_takes_answer :
  frameData answerOnlyFrame
  = Some (JObject [("type", JString "final_result"); ("summary", JString "");
                   ("answer", JString "Result is 1")])
  /\ content <$> messages_of (handleLine aid answerOnlyFrame inProgress) !! 1
     = Some (JString "Result is 1").
Proof. split; vm_compute; reflexivity. Qed.

Lemma final_result_applied_witness :
  exists ms',
    handleLine aid finalFrame inProgress = Exit ms'
    /\ content <$> ms' !! 1 = Some (JString "Result is 1")
    /\ sqlQuery <$> ms' !! 1 = Some JUndefined
    /\ isStreaming <$> ms' !! 1 = Some (Some false).
Proof.
  destruct (final_result_applied aid finalFrame
              (JObject [("type", JString "final_result");
                        ("summary", JString "Result is 1");
                        ("query_results", JArray [JArray [JNumber (RInt 1)]]);
                        ("columns", JArray [JString "n"])])
              inProgress) as (ms' & Hexit & Hlen & Hall).
  - vm_compute. reflexivity.
  - vm_compute. reflexivity.
  - exists ms'. split; [exact Hexit|].
    destruct (Hall 1 (assistantMessage clock) eq_refl) as (m' & Hm' & Hfields).
    replace (String.eqb (id (assistantMessage clock)) aid) with true in Hfields
      by (vm_compute; reflexivity).
    destruct Hfields as (Hc & Hq & _ & _ & _ & Hs & _).
    rewrite Hm'. cbn [fmap option_fmap option_map]. rewrite Hc, Hq, Hs.
    repeat split; vm_compute; reflexivity.
Defined.

(** C2, counterexample: [chat_done] is not a terminal event, and it turns
    [isStreaming] off. *)
Lemma chat_done_stops_streaming :
  isStreaming <$> inProgress !! 1 = Some (Some true)
  /\ frameType chatDoneFrame = Some (JString "chat_done")
  /\ isStreaming <$> messages_of (handleLine aid chatDoneFrame inProgress) !! 1
     = Some (Some false).
Proof. repeat split; vm_compute; reflexivity. Qed.

Lemma isStreaming_kept_witness :
  map isStreaming
      (fst (readLoop aid [bom +:+ wire thoughtFrame +:+ "data: {"; "oops" +:+ nl;
                          wire (tokenFrame "Res") +:+ wire heartbeatFrame]
                     TextDecoder_new "" inProgress))
  = [None; Some true].
Proof.
  apply (isStreaming_kept aid _ inProgress).
  vm_compute completeLines.
  repeat constructor; intros H; vm_compute in H; discriminate.
Defined.

(** C1, on the code as it is: the server reports a failure of the
    reasoning loop in an [error] frame and closes the stream.  The error is
    thrown inside the inner [try], whose [catch] logs it; the outer [catch]
    never runs, and the assistant message is left streaming with an empty
    content and no error shown. *)
Theorem error_frame_leaves_message_streaming :
  frameData errorFrame
  = Some (JObject [("type", JString "error"); ("content", JString "tool timeout")])
  /\ handleSubmit clock (Streaming [wire errorFrame] Done) (fresh "How many rows?")
     = mkState [userMessage clock "How many rows?"; assistantMessage clock] "" false None
  /\ isStreaming (assistantMessage (Num := RefNum) clock) = Some true
  /\ content (assistantMessage (Num := RefNum) clock) = JString "".
Proof. repeat split; vm_compute; reflexivity. Qed.

(** ** What holds along every stream *)

Section Streams.
Context {Num : Type} `{RT : JSRuntime Num}.
Implicit Types (ms : list (Message Num)) (m : Message Num).

Lemma keepsOrStops_refl m : keepsOrStops m m.
Proof. now left. Qed.

Lemma keepsOrStops_trans m1 m2 m3 :
  keepsOrStops m1 m2 -> keepsOrStops m2 m3 -> keepsOrStops m1 m3.
Proof. unfold keepsOrStops. intros [H1|H1] [H2|H2]; rewrite ?H2, ?H1; auto. Qed.

Lemma Forall2_keepsOrStops_refl ms : Forall2 keepsOrStops ms ms.
Proof. induction ms; constructor; auto using keepsOrStops_refl. Qed.

Lemma Forall2_keepsOrStops_trans ms1 ms2 ms3 :
  Forall2 keepsOrStops ms1 ms2 -> Forall2 keepsOrStops ms2 ms3 ->
  Forall2 keepsOrStops ms1 ms3.
Proof.
  intros H. revert ms3. induction H; intros ms3 H'; inversion H'; subst;
    constructor; eauto using keepsOrStops_trans.
Qed.

Lemma updateAssistant_keepsOrStops (aid : string) f ms :
  wellBehaved f -> Forall2 keepsOrStops ms (updateAssistant aid f ms).
Proof.
  intros (_ & Hf & _). unfold updateAssistant.
  induction ms as [|m ms IH]; cbn; constructor; [|exact IH].
  destruct (String.eqb (id m) aid); [apply Hf | apply keepsOrStops_refl].
Qed.

Lemma handleLine_keepsOrStops (aid line : string) ms :
  Forall2 keepsOrStops ms (messages_of (handleLine aid line ms)).
Proof.
  destruct (handleLine_shape line) as (f & brk & Hf & ->).
  destruct brk; cbn; now apply updateAssistant_keepsOrStops.
Qed.

Lemma forLines_keepsOrStops (aid : string) (lines : list string) ms :
  Forall2 keepsOrStops ms (messages_of (forLines aid lines ms)).
Proof.
  revert ms. induction lines as [|line rest IH]; intros ms;
    [apply Forall2_keepsOrStops_refl|].
  cbn. pose proof (handleLine_keepsOrStops aid line ms) as H.
  destruct (handleLine aid line ms) as [ms'|ms']; cbn in H; [|exact H].
  eapply Forall2_keepsOrStops_trans; [exact H | apply IH].
Qed.

Lemma readTexts_keepsOrStops (aid : string) (reads : list string) (buffer : string) ms :
  Forall2 keepsOrStops ms (fst (readTexts aid reads buffer ms)).
Proof.
  revert buffer ms. induction reads as [|value rest IH]; intros buffer ms;
    [apply Forall2_keepsOrStops_refl|].
  cbn [readTexts nextLines].
  eapply Forall2_keepsOrStops_trans; [apply forLines_keepsOrStops | apply IH].
Qed.

Lemma readLoop_keepsOrStops (aid : string) (reads : list string) (decoder : Decoder)
      (buffer : string) ms :
  Forall2 keepsOrStops ms (fst (readLoop aid reads decoder buffer ms)).
Proof. rewrite readLoop_texts. apply readTexts_keepsOrStops. Qed.

Lemma keepsOrStops_lookup ms ms' (i : nat) m :
  Forall2 keepsOrStops ms ms' ->
  ms !! i = Some m -> isStreaming m = Some false ->
  exists m', ms' !! i = Some m' /\ isStreaming m' = Some false.
Proof.
  intros H Hm Hfalse.
  destruct (Forall2_lookup_l _ _ _ _ _ H Hm) as (m' & Hm' & [Hk|Hk]);
    exists m'; split; auto; congruence.
Qed.

(** C7.  Once [isStreaming] is [false] for a message, it is [false]
    after every further read of the stream, whatever the frames are and
    whatever the decoder still holds. *)
Theorem isStreaming_never_restarts (aid : string) (reads later : list string)
        (decoder : Decoder) (ms : list (Message Num)) (i : nat) (m : Message Num) :
  fst (readLoop aid reads decoder "" ms) !! i = Some m ->
  isStreaming m = Some false ->
  exists m', fst (readLoop aid (reads ++ later) decoder "" ms) !! i = Some m'
             /\ isStreaming m' = Some false.
Proof.
  intros Hm Hfalse. rewrite readLoop_app.
  eapply keepsOrStops_lookup; [apply readLoop_keepsOrStops | exact Hm | exact Hfalse].
Qed.

(** The same across a whole submission: the messages that were there
    keep their place, and none that had stopped streaming starts again. *)
Lemma handleSubmit_never_restarts (clock : Clock) (resp : Response) (st : State Num)
      (i : nat) m :
  messages st !! i = Some m ->
  isStreaming m = Some false ->
  exists m', messages (handleSubmit clock resp st) !! i = Some m'
             /\ isStreaming m' = Some false.
Proof.
  intros Hm Hfalse. unfold handleSubmit.
  destruct (String.eqb (String_trim (inputValue st)) "" || isLoading st); [eauto|].
  set (aid := id (assistantMessage clock)).
  set (ms := (messages st ++ _) ++ _).
  assert (Hms : ms !! i = Some m).
  { subst ms. rewrite <- app_assoc. now apply lookup_app_l_Some. }
  assert (Hreq : Forall2 keepsOrStops ms (fst (request aid resp ms))).
  { destruct resp as [e|status| |reads ending]; cbn;
      try apply Forall2_keepsOrStops_refl.
    destruct ending; cbn; apply readLoop_keepsOrStops. }
  destruct (request aid resp ms) as [ms' [err|]]; cbn [fst] in Hreq; cbn [messages].
  - eapply keepsOrStops_lookup; [|exact Hms|exact Hfalse].
    eapply Forall2_keepsOrStops_trans; [exact Hreq|].
    apply updateAssistant_keepsOrStops, wellBehaved_applyFailure.
  - eapply keepsOrStops_lookup; eauto.
Qed.

(** *** Reads and the [break] of the [for] loop *)

Lemma finalResultLast_app (aid : string) (before after : list string) :
  finalResultLast aid (before ++ after) ->
  finalResultLast aid before /\ finalResultLast aid after.
Proof.
  induction before as [|line rest IH]; cbn; [tauto|].
  intros [Hline Hrest]. destruct (IH Hrest) as [H1 H2].
  repeat split; auto.
  intros Hty. specialize (Hline Hty). now apply Forall_app in Hline.
Qed.

Lemma forLines_app_messages (aid : string) (before after : list string) ms :
  finalResultLast aid (before ++ after) ->
  messages_of (forLines aid (before ++ after) ms)
  = messages_of (forLines aid after (messages_of (forLines aid before ms))).
Proof.
  revert ms. induction before as [|line rest IH]; intros ms; [reflexivity|].
  cbn [app finalResultLast forLines]. intros [Hline Hrest].
  destruct (handleLine aid line ms) as [ms'|ms'] eqn:E; [now apply IH|].
  apply handleLine_Exit in E. specialize (Hline E).
  apply Forall_app in Hline as [_ Hafter].
  cbn. now rewrite forLines_ignored.
Qed.

Lemma reads_as_one (aid : string) (chunks : list (list string)) ms :
  finalResultLast aid (concat chunks) ->
  fold_left (fun acc lines => messages_of (forLines aid lines acc)) chunks ms
  = messages_of (forLines aid (concat chunks) ms).
Proof.
  revert ms. induction chunks as [|lines rest IH]; intros ms H; [reflexivity|].
  cbn [concat fold_left] in *.
  rewrite forLines_app_messages by assumption.
  apply IH. now apply finalResultLast_app in H.
Qed.

(** The messages at the end of a stream in which nothing but ignored
    lines follows a [final_result] frame. *)
Lemma readLoop_final_last (aid : string) (reads : list string) ms :
  finalResultLast aid (completeLines (textOf reads)) ->
  fst (readLoop aid reads TextDecoder_new "" ms)
  = messages_of (forLines aid (completeLines (textOf reads)) ms).
Proof.
  intros H. rewrite readLoop_texts, readTexts_messages, <- linesHandedOver_complete.
  apply reads_as_one. now rewrite linesHandedOver_complete.
Qed.

(** C5, as amended.  However the bytes of the stream are cut into reads,
    the decoded text is the same, the lines handed to the [for] loop are,
    in order, the complete lines of the decoded text, and the buffer left
    at the end is its trailing partial line; and when nothing but ignored
    lines follows a [final_result] frame, the messages at the end are
    those of handling all the complete lines in one go, so they do not
    depend on the reads either. *)
Theorem buffering_independent_of_reads (aid : string) (reads1 reads2 : list string)
        (ms : list (Message Num)) :
  streamOf reads1 = streamOf reads2 ->
  textOf reads2 = textOf reads1
  /\ concat (linesHandedOver reads1) = completeLines (textOf reads1)
  /\ concat (linesHandedOver reads2) = concat (linesHandedOver reads1)
  /\ snd (readLoop aid reads1 TextDecoder_new "" ms) = partialLine (textOf reads1)
  /\ snd (readLoop aid reads2 TextDecoder_new "" ms)
     = snd (readLoop aid reads1 TextDecoder_new "" ms)
  /\ (finalResultLast aid (completeLines (textOf reads1)) ->
      fst (readLoop aid reads1 TextDecoder_new "" ms)
      = messages_of (forLines aid (completeLines (textOf reads1)) ms)
      /\ fst (readLoop aid reads2 TextDecoder_new "" ms)
         = fst (readLoop aid reads1 TextDecoder_new "" ms)).
Proof.
  intros Hsame. pose proof (textOf_stream _ _ Hsame) as Htext.
  repeat split.
  - now symmetry.
  - apply linesHandedOver_complete.
  - now rewrite !linesHandedOver_complete, Htext.
  - apply readLoop_buffer.
  - now rewrite !readLoop_buffer, Htext.
  - now apply readLoop_final_last.
  - rewrite (readLoop_final_last aid reads1) by assumption.
    rewrite Htext in *. now apply readLoop_final_last.
Qed.

End Streams.

Lemma isStreaming_never_restarts_witness :
  exists m',
    fst (readLoop aid ([bom +:+ wire chatDoneFrame]
                       ++ [wire (tokenFrame "late"); wire errorFrame])
                  TextDecoder_new "" inProgress) !! 1 = Some m'
    /\ isStreaming m' = Some false.
Proof.
  apply (isStreaming_never_restarts aid [bom +:+ wire chatDoneFrame]
           [wire (tokenFrame "late"); wire errorFrame] TextDecoder_new inProgress 1
           (stopStreaming (assistantMessage clock))).
  - vm_compute. reflexivity.
  - reflexivity.
Defined.

(** C5, counterexample: a token frame after the [final_result] frame is
    dropped when both arrive in one read and applied when the read ends
    between them. *)
Lemma reads_matter_after_final_result :
  streamOf [finalFrame +:+ nl +:+ tokenFrame "!" +:+ nl]
  = streamOf [finalFrame +:+ nl; tokenFrame "!" +:+ nl]
  /\ content <$> fst (readLoop aid [finalFrame +:+ nl +:+ tokenFrame "!" +:+ nl]
                               TextDecoder_new "" inProgress) !! 1
     = Some (JString "Result is 1")
  /\ content <$> fst (readLoop aid [finalFrame +:+ nl; tokenFrame "!" +:+ nl]
                               TextDecoder_new "" inProgress) !! 1
     = Some (JString "Result is 1!").
Proof. repeat split; vm_compute; reflexivity. Qed.

Lemma buffering_independent_of_reads_witness :
  textOf [bom +:+ wire (tokenFrame ("caf" +:+ eAcuteLead +:+ eAcuteTrail))]
  = textOf [bom; wire (tokenFrame ("caf" +:+ eAcuteLead +:+ eAcuteTrail))]
  /\ snd (readLoop aid [bom +:+ wire thoughtFrame +:+ "data: {";
                        "oops" +:+ nl +:+ finalFrame; nl +:+ nl +:+ "da"]
                   TextDecoder_new "" inProgress) = "da"
  /\ fst (readLoop aid [bom +:+ wire thoughtFrame +:+ "data: {oops" +:+ nl
                          +:+ wire finalFrame +:+ "da"] TextDecoder_new "" inProgress)
     = fst (readLoop aid [bom +:+ wire thoughtFrame +:+ "data: {";
                          "oops" +:+ nl +:+ finalFrame; nl +:+ nl +:+ "da"]
                     TextDecoder_new "" inProgress).
Proof.
  split.
  - destruct (buffering_independent_of_reads aid
                [bom; wire (tokenFrame ("caf" +:+ eAcuteLead +:+ eAcuteTrail))]
                [bom +:+ wire (tokenFrame ("caf" +:+ eAcuteLead +:+ eAcuteTrail))]
                inProgress) as (Htext & _).
    + vm_compute. reflexivity.
    + exact Htext.
  - destruct (buffering_independent_of_reads aid
              [bom +:+ wire thoughtFrame +:+ "data: {"; "oops" +:+ nl +:+ finalFrame;
               nl +:+ nl +:+ "da"]
              [bom +:+ wire thoughtFrame +:+ "data: {oops" +:+ nl +:+ wire finalFrame
                 +:+ "da"]
              inProgress) as (_ & _ & _ & Hbuf & _ & Hms).
    + vm_compute. reflexivity.
    + split; [rewrite Hbuf; vm_compute; reflexivity|].
      apply Hms.
      match goal with
      | |- finalResultLast _ ?lines =>
          let lines' := eval vm_compute in lines in
          replace lines with lines' by (vm_compute; reflexivity)
      end.
      cbn [finalResultLast].
      repeat split; try (intros H; vm_compute in H; discriminate H).
      intros _. repeat constructor; intros ms; reflexivity.
Defined.

(** ** Replaying a stream *)

Lemma toString_inj (a b : N) : toString a = toString b -> a = b.
Proof.
  unfold toString. intros H.
  assert (Hu : N.to_uint a = N.to_uint b).
  { apply (f_equal NilEmpty.uint_of_string) in H.
    rewrite !NilEmpty.usu in H. congruence. }
  apply (f_equal N.of_uint) in Hu. now rewrite !DecimalN.Unsigned.of_to in Hu.
Qed.

Section Replay.
Context {Num : Type} `{RT : JSRuntime Num}.
Implicit Types (ms : list (Message Num)) (m : Message Num).

Lemma updateAssistant_sameUpTo (aid1 aid2 : string) f ms1 ms2 :
  wellBehaved f ->
  Forall2 (sameUpTo aid1 aid2) ms1 ms2 ->
  Forall2 (sameUpTo aid1 aid2) (updateAssistant aid1 f ms1) (updateAssistant aid2 f ms2).
Proof.
  intros (Hid & _ & Hobs). unfold updateAssistant.
  induction 1 as [|m1 m2 ms1 ms2 [Ho Hrole] _ IH]; cbn; constructor; [|exact IH].
  destruct (String.eqb_spec (id m1) aid1) as [E1|E1];
    destruct (String.eqb_spec (id m2) aid2) as [E2|E2];
    try tauto; split; auto.
  rewrite !Hid. tauto.
Qed.

Lemma forLines_sameUpTo (aid1 aid2 : string) (lines : list string) ms1 ms2 :
  Forall2 (sameUpTo aid1 aid2) ms1 ms2 ->
  Forall2 (sameUpTo aid1 aid2)
          (messages_of (forLines aid1 lines ms1)) (messages_of (forLines aid2 lines ms2)).
Proof.
  revert ms1 ms2. induction lines as [|line rest IH]; intros ms1 ms2 H; [exact H|].
  cbn [forLines].
  destruct (handleLine_shape line) as (f & brk & Hf & Hline).
  rewrite !Hline.
  pose proof (updateAssistant_sameUpTo aid1 aid2 f ms1 ms2 Hf H) as H'.
  destruct brk; [exact H' | now apply IH].
Qed.

Lemma readTexts_sameUpTo (aid1 aid2 : string) (reads : list string) (buffer : string)
      ms1 ms2 :
  Forall2 (sameUpTo aid1 aid2) ms1 ms2 ->
  Forall2 (sameUpTo aid1 aid2)
          (fst (readTexts aid1 reads buffer ms1)) (fst (readTexts aid2 reads buffer ms2)).
Proof.
  revert buffer ms1 ms2.
  induction reads as [|value rest IH]; intros buffer ms1 ms2 H; [exact H|].
  cbn [readTexts nextLines]. now apply IH, forLines_sameUpTo.
Qed.

Lemma readLoop_sameUpTo (aid1 aid2 : string) (reads : list string) (decoder : Decoder)
      (buffer : string) ms1 ms2 :
  Forall2 (sameUpTo aid1 aid2) ms1 ms2 ->
  Forall2 (sameUpTo aid1 aid2)
          (fst (readLoop aid1 reads decoder buffer ms1))
          (fst (readLoop aid2 reads decoder buffer ms2)).
Proof. rewrite !readLoop_texts. apply readTexts_sameUpTo. Qed.

Lemma request_sameUpTo (aid1 aid2 : string) (resp : Response) ms1 ms2 :
  Forall2 (sameUpTo aid1 aid2) ms1 ms2 ->
  Forall2 (sameUpTo aid1 aid2)
          (fst (request aid1 resp ms1)) (fst (request aid2 resp ms2))
  /\ snd (request aid1 resp ms1) = snd (request aid2 resp ms2).
Proof.
  intros H. destruct resp as [e|status| |reads ending]; cbn; auto.
  destruct ending; cbn; split; auto using readLoop_sameUpTo.
Qed.

(** What a line does depends on the parsed payload alone, so a [for]
    loop depends on the events of its lines alone. *)
Lemma handleLine_same_data (aid line1 line2 : string) ms :
  frameData line1 = frameData line2 ->
  handleLine aid line1 ms = handleLine aid line2 ms.
Proof.
  unfold frameData, handleLine, tryBlock.
  destruct (startsWith "data: " line1), (startsWith "data: " line2).
  - now intros ->.
  - now intros ->.
  - now intros <-.
  - reflexivity.
Qed.

Lemma forLines_no_events (aid : string) (lines : list string) ms :
  omap frameData lines = [] -> forLines aid lines ms = Continue ms.
Proof.
  induction lines as [|line rest IH]; [reflexivity|].
  cbn [omap list_omap]. destruct (frameData line) as [data|] eqn:E; [discriminate|].
  intros H. cbn [forLines]. rewrite handleLine_no_data by assumption. now apply IH.
Qed.

Lemma forLines_events (aid : string) (lines1 lines2 : list string) ms :
  omap frameData lines1 = omap frameData lines2 ->
  forLines aid lines1 ms = forLines aid lines2 ms.
Proof.
  revert lines2 ms. induction lines1 as [|line1 rest1 IH1]; intros lines2 ms H.
  - cbn in H. symmetry in H. now rewrite (forLines_no_events aid lines2).
  - cbn [omap list_omap] in H. destruct (frameData line1) as [data|] eqn:E1.
    + induction lines2 as [|line2 rest2 IH2]; [discriminate|].
      cbn [omap list_omap] in H. destruct (frameData line2) as [data2|] eqn:E2.
      * injection H as -> Hrest. cbn [forLines].
        rewrite (handleLine_same_data aid line1 line2) by congruence.
        destruct (handleLine aid line2 ms); [now apply IH1 | reflexivity].
      * cbn [forLines] in IH2 |- *. rewrite (handleLine_no_data aid line2) by assumption.
        now apply IH2.
    + cbn [forLines]. rewrite handleLine_no_data by assumption. now apply IH1.
Qed.

Lemma request_sameEvents (aid1 aid2 : string) (resp1 resp2 : Response) ms1 ms2 :
  sameEvents (Num := Num) resp1 resp2 ->
  Forall2 (sameUpTo aid1 aid2) ms1 ms2 ->
  Forall2 (sameUpTo aid1 aid2)
          (fst (request aid1 resp1 ms1)) (fst (request aid2 resp2 ms2))
  /\ snd (request aid1 resp1 ms1) = snd (request aid2 resp2 ms2).
Proof.
  intros [->|(reads1 & reads2 & ending & -> & -> & Hsame & Hlast)] H;
    [now apply request_sameUpTo|].
  assert (Hms : Forall2 (sameUpTo aid1 aid2)
                  (fst (readLoop aid1 reads1 TextDecoder_new "" ms1))
                  (fst (readLoop aid2 reads2 TextDecoder_new "" ms2))).
  { rewrite (readLoop_final_last aid1 reads1) by apply Hlast.
    rewrite (readLoop_final_last aid2 reads2) by apply Hlast.
    rewrite <- (forLines_events aid2 _ _ ms2 Hsame). now apply forLines_sameUpTo. }
  destruct ending; cbn; split; auto.
Qed.

Lemma request_sameEvents_eq (aid : string) (resp1 resp2 : Response) ms :
  sameEvents (Num := Num) resp1 resp2 ->
  request aid resp1 ms = request aid resp2 ms.
Proof.
  intros [->|(reads1 & reads2 & ending & -> & -> & Hsame & Hlast)]; [reflexivity|].
  cbn. rewrite (readLoop_final_last aid reads1) by apply Hlast.
  rewrite (readLoop_final_last aid reads2) by apply Hlast.
  now rewrite (forLines_events aid _ _ ms Hsame).
Qed.

Lemma sameUpTo_observable (aid1 aid2 : string) ms1 ms2 :
  Forall2 (sameUpTo aid1 aid2) ms1 ms2 -> map observable ms1 = map observable ms2.
Proof. induction 1 as [|m1 m2 ms1 ms2 [Ho _] _ IH]; cbn; congruence. Qed.

(** C8, as amended.  Replaying the events of a response into a freshly
    mounted component, in the same reads or, when nothing but ignored
    lines follows a [final_result] frame, in any bytes and reads that
    deliver the same events: with the same readings of the clock the two
    final states are equal, and with any two clocks that do not run
    backwards they differ in nothing but the ids and timestamps taken
    from the clock. *)
Theorem replay_gives_same_state (question : string) (resp1 resp2 : Response)
        (clock1 clock2 : Clock) :
  sameEvents (Num := Num) resp1 resp2 ->
  let st1 := handleSubmit clock1 resp1 (fresh question) in
  let st2 := handleSubmit clock2 resp2 (fresh question) in
  (clock1 = clock2 -> st1 = st2)
  /\ (monotone clock1 -> monotone clock2 ->
      map observable (messages st1) = map observable (messages st2)
      /\ inputValue st1 = inputValue st2
      /\ isLoading st1 = isLoading st2
      /\ error st1 = error st2).
Proof.
  intros Hevents. cbn zeta. split.
  { intros ->. unfold handleSubmit.
    destruct (String.eqb (String_trim (inputValue (fresh question))) ""
              || isLoading (fresh question)); [reflexivity|].
    now rewrite (request_sameEvents_eq _ resp1 resp2). }
  intros Hc1 Hc2. unfold handleSubmit, fresh. cbn [inputValue isLoading messages].
  destruct (String.eqb (String_trim question) "" || false); [auto|].
  cbn [app].
  set (aid1 := id (assistantMessage clock1)).
  set (aid2 := id (assistantMessage clock2)).
  set (ms1 := [userMessage clock1 _; assistantMessage clock1]).
  set (ms2 := [userMessage clock2 _; assistantMessage clock2]).
  assert (Hinit : Forall2 (sameUpTo aid1 aid2) ms1 ms2).
  { assert (Huser : forall clock, monotone clock ->
               id (userMessage (Num := Num) clock (String_trim question))
               <> id (assistantMessage (Num := Num) clock)).
    { intros clock Hc E. cbn in E. apply toString_inj in E.
      unfold monotone in Hc. lia. }
    subst ms1 ms2 aid1 aid2. constructor; [|constructor; [|constructor]].
    - split; [reflexivity|].
      split; intros E; exfalso; [apply (Huser clock1) | apply (Huser clock2)]; auto.
    - split; [reflexivity|]. split; reflexivity. }
  destruct (request_sameEvents aid1 aid2 resp1 resp2 ms1 ms2 Hevents Hinit) as [Hms Herr].
  destruct (request aid1 resp1 ms1) as [ms1' err1].
  destruct (request aid2 resp2 ms2) as [ms2' err2].
  cbn [fst snd] in Hms, Herr. subst err2.
  destruct err1 as [err|]; cbn [messages inputValue isLoading error]; repeat split.
  - eapply sameUpTo_observable, updateAssistant_sameUpTo;
      [apply wellBehaved_applyFailure | exact Hms].
  - eapply sameUpTo_observable; exact Hms.
Qed.

End Replay.

(** C8, counterexample: the same events replayed with the same clock, cut
    into reads in two ways, end in two contents; and replayed in the same
    reads at a later time, in another id for the assistant message. *)
Lemma replay_depends_on_reads_and_clock :
  streamOf [wire finalFrame +:+ wire (tokenFrame "!")]
  = streamOf [wire finalFrame; wire (tokenFrame "!")]
  /\ content <$> messages (handleSubmit clock
                             (Streaming [wire finalFrame +:+ wire (tokenFrame "!")] Done)
                             (fresh "How many rows?")) !! 1
     = Some (JString "Result is 1")
  /\ content <$> messages (handleSubmit clock
                             (Streaming [wire finalFrame; wire (tokenFrame "!")] Done)
                             (fresh "How many rows?")) !! 1
     = Some (JString "Result is 1!")
  /\ id <$> messages (handleSubmit clock (Streaming [wire finalFrame] Done)
                        (fresh (Num := RefNum) "How many rows?")) !! 1
     = Some "1730000000003"
  /\ id <$> messages (handleSubmit laterClock (Streaming [wire finalFrame] Done)
                        (fresh (Num := RefNum) "How many rows?")) !! 1
     = Some "1730000999002".
Proof. repeat split; vm_compute; reflexivity. Qed.

Lemma replay_gives_same_state_witness :
  handleSubmit clock (Streaming (cutAt insideAccent accentedBody) Done)
               (fresh "How many rows?")
  = handleSubmit clock (Streaming [plainBody] Done) (fresh "How many rows?")
  /\ map observable
        (messages (handleSubmit clock (Streaming (cutAt insideAccent accentedBody) Done)
                     (fresh "How many rows?")))
     = map observable
         (messages (handleSubmit laterClock (Streaming [plainBody] Done)
                      (fresh "How many rows?"))).
Proof.
  assert (Hevents : sameEvents (Num := RefNum)
                      (Streaming (cutAt insideAccent accentedBody) Done)
                      (Streaming [plainBody] Done)).
  { right. exists (cutAt insideAccent accentedBody), [plainBody], Done.
    split; [reflexivity|]. split; [reflexivity|].
    split; [vm_compute; reflexivity|]. intros a.
    split;
      (match goal with
       | |- finalResultLast _ ?lines =>
           let lines' := eval vm_compute in lines in
           replace lines with lines' by (vm_compute; reflexivity)
       end;
       cbn [finalResultLast];
       repeat split; try (intros H; vm_compute in H; discriminate H);
       intros _; repeat constructor; intros ms; reflexivity). }
  split.
  - now apply (replay_gives_same_state "How many rows?" _ _ clock clock Hevents).
  - apply (replay_gives_same_state "How many rows?" _ _ clock laterClock Hevents).
    + vm_compute. discriminate.
    + vm_compute. discriminate.
Defined.

(** ** Loading the chat history *)

Section History.
Context {Num : Type} `{RT : JSRuntime Num}.
Import Startup.

(** C9, as amended.  A stored history that is not empty and that
    [JSON.parse] rejects is removed from the store and leaves the message
    list empty.  The effect takes an empty stored value, which
    [JSON.parse] rejects as well, for no history: it is not parsed and it
    stays in the store.  In every case the effect marks the initial load
    as complete. *)
Theorem corrupt_history_removed (store : gmap string string) (saved : string) :
  store !! "chatHistory" = Some saved ->
  JSON_parse saved = None ->
  (saved <> "" ->
   localStorage (loadHistory (initialState store)) = delete "chatHistory" store
   /\ loaded (loadHistory (initialState store)) = []
   /\ prevMessageCount (loadHistory (initialState store)) = 0)
  /\ (saved = "" ->
      localStorage (loadHistory (initialState store)) = store
      /\ loaded (loadHistory (initialState store)) = []
      /\ prevMessageCount (loadHistory (initialState store)) = 0)
  /\ forall st, initialLoadComplete (loadHistory st) = true.
Proof.
  intros Hsaved Hparse.
  unfold loadHistory, initialState, parseHistory. cbn [localStorage].
  rewrite Hsaved. split; [|split].
  - intros Hne. apply String.eqb_neq in Hne. rewrite Hne, Hparse. repeat split.
  - intros ->. repeat split.
  - reflexivity.
Qed.

End History.

(** C9, counterexample: the empty string is a stored history that
    [JSON.parse] rejects, and the effect leaves it in the store. *)
Lemma empty_history_kept :
  JSON_parse (Num := RefNum) "" = None
  /\ Startup.localStorage
       (Startup.loadHistory (Num := RefNum)
          (Startup.initialState {["chatHistory" := ""]})) !! "chatHistory"
     = Some ""
  /\ Startup.loaded
       (Startup.loadHistory (Num := RefNum)
          (Startup.initialState {["chatHistory" := ""]}))
     = [].
Proof.
  split; [vm_compute; reflexivity|].
  unfold Startup.loadHistory, Startup.initialState. cbn [Startup.localStorage].
  rewrite lookup_singleton_eq. cbn. rewrite lookup_singleton_eq. split; reflexivity.
Qed.

Lemma corrupt_history_removed_witness :
  Startup.localStorage
    (Startup.loadHistory (Startup.initialState {["chatHistory" := "[{oops"]}))
  = ∅
  /\ Startup.loaded
       (Startup.loadHistory (Startup.initialState {["chatHistory" := "[{oops"]}))
     = [].
Proof.
  destruct (corrupt_history_removed {["chatHistory" := "[{oops"]} "[{oops")
    as (Hremoved & _).
  - vm_compute. reflexivity.
  - vm_compute. reflexivity.
  - destruct Hremoved as (Hstore & Hloaded & _); [discriminate|].
    split; [|exact Hloaded]. rewrite Hstore. apply delete_singleton_eq.
Defined.

(** * Further properties of the code *)

Import MoreExamples.

(** ** Buffering keeps the text *)

Lemma joinLines_app (a b : list string) (rest : string) :
  joinLines (a ++ b) rest = joinLines a (joinLines b rest).
Proof. induction a as [|line a IH]; [reflexivity|]. cbn. now rewrite IH. Qed.

Lemma joinLines_split (s : string) :
  joinLines (completeLines s) (partialLine s) = s.
Proof.
  unfold completeLines, partialLine.
  induction s as [|c s IH]; [reflexivity|].
  pose proof (split_newline_nonempty s) as Hne.
  cbn [split_newline].
  destruct (Ascii.eqb_spec c newline) as [->|Hc].
  - rewrite removelast_cons_nonempty, last_cons_nonempty by assumption.
    cbn [joinLines]. now rewrite IH.
  - destruct (split_newline s) as [|p [|p' ps]]; [congruence| |].
    + cbn in IH |- *. now rewrite IH.
    + cbn [removelast joinLines] in IH |- *.
      rewrite last_cons_nonempty in IH |- * by discriminate.
      rewrite string_app_cons. now rewrite IH.
Qed.

Section Conservation.
Context {Num : Type} `{RT : JSRuntime Num}.
Implicit Types (ms : list (Message Num)) (m : Message Num).

(** X1.  Buffering loses nothing and repeats nothing: the lines handed to
    the [for] loop over all the reads, each followed by a newline, and then
    the buffer that is left, are the decoded text of the stream. *)
Theorem buffering_keeps_the_text (aid : string) (reads : list string)
        (ms : list (Message Num)) :
  joinLines (concat (linesHandedOver reads))
            (snd (readLoop aid reads TextDecoder_new "" ms))
  = textOf reads.
Proof.
  rewrite readLoop_buffer, linesHandedOver_complete.
  apply joinLines_split.
Qed.

Lemma split_newline_fixed_cons (c : ascii) (s : string) :
  split_newline (String c s) = [String c s] ->
  c <> newline /\ split_newline s = [s].
Proof.
  cbn [split_newline]. pose proof (split_newline_nonempty s) as Hne.
  destruct (Ascii.eqb_spec c newline) as [->|Hc]; [intros [=]; congruence|].
  destruct (split_newline s) as [|p [|p' ps]]; [congruence| |discriminate].
  intros [= ->]. auto.
Qed.

Lemma split_newline_fixed_app (a b : string) :
  split_newline a = [a] -> split_newline b = [b] ->
  split_newline (a +:+ b) = [a +:+ b].
Proof.
  intros Ha Hb. induction a as [|c a IH]; [exact Hb|].
  apply split_newline_fixed_cons in Ha as [Hc Ha].
  rewrite string_app_cons. cbn [split_newline].
  apply Ascii.eqb_neq in Hc. rewrite Hc. now rewrite (IH Ha).
Qed.

(** A decoder that makes no newline of its own gives a text without
    newline for bytes without newline. *)
Lemma decode_no_newline (decoder : Decoder) (value : string) :
  decoderMakesNoNewline ->
  split_newline value = [value] ->
  split_newline (fst (decode decoder value)) = [fst (decode decoder value)].
Proof.
  intros Hdec. revert decoder. induction value as [|c value IH]; intros decoder Hv;
    [reflexivity|].
  apply split_newline_fixed_cons in Hv as [Hc Hv].
  cbn [decode]. specialize (Hdec decoder c Hc).
  destruct (decode_byte decoder c) as [out decoder'].
  specialize (IH decoder' Hv). destruct (decode decoder' value) as [outs decoder''].
  cbn [fst] in *. now apply split_newline_fixed_app.
Qed.

(** X2.  A last chunk without a newline is never handled: what the decoder
    gives for it stays in the buffer when the stream ends, even when it
    holds a whole frame.  (The decoder gives out a newline for a newline
    byte only, as a UTF-8 decoder does.) *)
Theorem unterminated_tail_dropped (aid : string) (reads : list string) (tail : string)
        (ms : list (Message Num)) :
  decoderMakesNoNewline ->
  split_newline tail = [tail] ->
  fst (readLoop aid (reads ++ [tail]) TextDecoder_new "" ms)
  = fst (readLoop aid reads TextDecoder_new "" ms)
  /\ snd (readLoop aid (reads ++ [tail]) TextDecoder_new "" ms)
     = snd (readLoop aid reads TextDecoder_new "" ms)
       +:+ fst (decode (decoderAfter TextDecoder_new reads) tail).
Proof.
  intros Hdec Htail. rewrite readLoop_app.
  pose proof (readLoop_buffer aid reads ms) as Hbuf.
  set (buffer := snd (readLoop aid reads TextDecoder_new "" ms)) in *.
  assert (Hb : split_newline buffer = [buffer]).
  { rewrite Hbuf. apply partialLine_no_newline. }
  pose proof (decode_no_newline (decoderAfter TextDecoder_new reads) tail Hdec Htail)
    as Htext.
  cbn [readLoop]. destruct (decode (decoderAfter TextDecoder_new reads) tail)
    as [text decoder'].
  cbn [fst] in Htext. cbn [nextLines fst snd].
  rewrite (split_newline_fixed_app _ _ Hb Htext). cbn. auto.
Qed.

End Conservation.

(** The reference decoder gives out a newline for a newline byte only:
    the bytes it writes for a scalar value above U+007F are all above
    127. *)
Lemma high_not_newline (base k x : N) :
  (128 <= base)%N -> (0 < k)%N -> (base + k <= 256)%N ->
  Ascii.eqb (high base k x) newline = false.
Proof.
  intros Hbase Hk Hmax. apply Ascii.eqb_neq. intros E.
  apply (f_equal N_of_ascii) in E. unfold high in E.
  assert (Hmod : (x mod k < k)%N) by (apply N.mod_upper_bound; lia).
  set (r := (x mod k)%N) in *. clearbody r.
  rewrite N_ascii_embedding in E by lia.
  change (N_of_ascii newline) with 10%N in E. lia.
Qed.

Lemma encode_no_newline (cp : N) : split_newline (encode cp) = [encode cp].
Proof.
  unfold encode. destruct (cp <? 2048)%N; [|destruct (cp <? 65536)%N];
    cbn [split_newline]; rewrite !high_not_newline by lia; reflexivity.
Qed.

Lemma written_no_newline (b : ascii) (items : list Item) :
  b <> newline ->
  Forall (fun item => item = Plain b \/ exists cp, item = Scalar cp) items ->
  split_newline (fold_right (fun item out => String.append (written item) out) "" items)
  = [fold_right (fun item out => String.append (written item) out) "" items].
Proof.
  intros Hb. induction 1 as [|item items Hitem _ IH]; [reflexivity|].
  cbn [fold_right]. apply split_newline_fixed_app; [|exact IH].
  destruct Hitem as [->|[cp ->]]; cbn [written]; [|apply encode_no_newline].
  cbn [split_newline]. apply Ascii.eqb_neq in Hb. now rewrite Hb.
Qed.

Lemma decodeByte_no_newline : decoderMakesNoNewline (RT := runtime).
Proof.
  intros d b Hb. cbn [decode_byte runtime].
  assert (Hstart : forall d0,
             Forall (fun item => item = Plain b \/ exists cp, item = Scalar cp)
                    (fst (start d0 b))).
  { intros d0. unfold start.
    repeat match goal with
           | |- context [if ?c then _ else _] => destruct c
           end; cbn [fst];
      repeat match goal with |- Forall _ _ => constructor end; eauto. }
  assert (Hhandler : Forall (fun item => item = Plain b \/ exists cp, item = Scalar cp)
                            (fst (handler d b))).
  { unfold handler. destruct (needed d =? 0)%N; [apply Hstart|].
    destruct (negb (between (lower d) (upper d) (N_of_ascii b))).
    - specialize (Hstart (reset d)). destruct (start (reset d) b) as [items d'].
      cbn [fst] in *. constructor; eauto.
    - destruct (seen d + 1 =? needed d)%N; cbn [fst];
        repeat match goal with |- Forall _ _ => constructor end; eauto. }
  unfold decodeByte. destruct (handler d b) as [items d']. cbn [fst] in Hhandler.
  assert (Hsniff : Forall (fun item => item = Plain b \/ exists cp, item = Scalar cp)
                          (fst (sniff (bomSeen d') items))).
  { unfold sniff. destruct Hhandler as [|item items Hitem Hitems]; [constructor|].
    destruct (bomSeen d'); [now constructor|].
    destruct item as [c|cp]; [now constructor|].
    destruct (cp =? 65279)%N; [exact Hitems | now constructor]. }
  destruct (sniff (bomSeen d') items) as [items' seenNow]. cbn [fst] in *.
  now apply (written_no_newline b).
Qed.

Lemma unterminated_tail_dropped_witness :
  fst (readLoop aid ([bom +:+ wire thoughtFrame] ++ [finalFrame +:+ eAcuteLead])
               TextDecoder_new "" inProgress)
  = fst (readLoop aid [bom +:+ wire thoughtFrame] TextDecoder_new "" inProgress)
  /\ snd (readLoop aid ([bom +:+ wire thoughtFrame] ++ [finalFrame +:+ eAcuteLead])
                  TextDecoder_new "" inProgress)
     = finalFrame.
Proof.
  destruct (unterminated_tail_dropped aid [bom +:+ wire thoughtFrame]
              (finalFrame +:+ eAcuteLead) inProgress decodeByte_no_newline)
    as [Hms Hbuf].
  - vm_compute. reflexivity.
  - split; [exact Hms|]. rewrite Hbuf. vm_compute. reflexivity.
Defined.

(** ** What a stream does to the messages *)

Section Effects.
Context {Num : Type} `{RT : JSRuntime Num}.
Implicit Types (ms : list (Message Num)) (m : Message Num).

(** The update of one line, with all that the later proofs need of it. *)
Lemma handleLine_effect (line : string) :
  exists (f : Message Num -> Message Num) (brk : bool),
    (forall aid ms,
        handleLine aid line ms
        = (if brk then Exit else Continue) (updateAssistant aid f ms))
    /\ (brk = true <-> hasType line "final_result")
    /\ forall m,
        id (f m) = id m
        /\ type (f m) = type m
        /\ timestamp (f m) = timestamp m
        /\ default [] (reasoningSteps (f m))
           = default [] (reasoningSteps m) ++ option_list (stepOf line)
        /\ (stops line -> isStreaming (f m) = Some false)
        /\ (brk = false ->
            content (f m)
            = match tokenOf line with
              | Some token => js_add (js_or (content m) (JString "")) token
              | None => content m
              end).
Proof.
  assert (Hsame : forall aid ms,
             Continue (Num := Num) ms = Continue (updateAssistant aid (fun m => m) ms)).
  { intros. now rewrite updateAssistant_same. }
  unfold handleLine, tryBlock, stops, hasType, frameType, stepOf, tokenOf, frameData.
  destruct (startsWith "data: " line).
  2:{ exists (fun m => m), false. split; [apply Hsame|]. cbn.
      split; [split; discriminate|]. intros m. rewrite app_nil_r.
      repeat split; auto. intros [H|H]; discriminate. }
  destruct (JSON_parse (slice 6 line)) as [data|]; cbn.
  2:{ exists (fun m => m), false. split; [apply Hsame|].
      split; [split; discriminate|]. intros m. rewrite app_nil_r.
      repeat split; auto. intros [H|H]; discriminate. }
  destruct (get_prop data "type") as [ty|]; cbn.
  2:{ exists (fun m => m), false. split; [apply Hsame|].
      split; [split; discriminate|]. intros m. rewrite app_nil_r.
      repeat split; auto. intros [H|H]; discriminate. }
  destruct (strict_eq_string ty "reasoning_step") eqn:E1.
  { apply strict_eq_string_true in E1. subst ty. cbn.
    eexists _, false. split; [reflexivity|].
    split; [split; discriminate|]. intros m. cbn.
    repeat split; auto. intros [H|H]; discriminate. }
  destruct (strict_eq_string ty "chat_token") eqn:E2.
  { apply strict_eq_string_true in E2. subst ty. cbn.
    eexists _, false. split; [reflexivity|].
    split; [split; discriminate|]. intros m. cbn. rewrite app_nil_r.
    repeat split; auto. intros [H|H]; discriminate. }
  destruct (strict_eq_string ty "chat_done") eqn:E3.
  { apply strict_eq_string_true in E3. subst ty. cbn.
    eexists _, false. split; [reflexivity|].
    split; [split; discriminate|]. intros m. cbn. rewrite app_nil_r.
    repeat split; auto. }
  destruct (strict_eq_string ty "final_result") eqn:E4.
  { apply strict_eq_string_true in E4. subst ty. cbn.
    eexists _, true. split; [reflexivity|].
    split; [split; reflexivity|]. intros m. cbn. rewrite app_nil_r.
    repeat split; auto. discriminate. }
  assert (Hnot : Some ty <> Some (JString "final_result")
                 /\ Some ty <> Some (JString "chat_done")).
  { split; intros [= ->]; cbn in *; discriminate. }
  destruct Hnot as [Hf Hd].
  destruct (strict_eq_string ty "error");
    (exists (fun m => m), false; split; [apply Hsame|];
     split; [split; [discriminate | intros H; congruence]|];
     intros m; rewrite app_nil_r; repeat split; auto;
     intros [H|H]; congruence).
Qed.

Lemma evolves_refl (aid : string) m : evolves aid m m.
Proof. repeat split; auto. exists []. now rewrite app_nil_r. Qed.

Lemma evolves_trans (aid : string) m1 m2 m3 :
  evolves aid m1 m2 -> evolves aid m2 m3 -> evolves aid m1 m3.
Proof.
  intros (Hi & Ht & Hs & [a Ha] & Ho) (Hi' & Ht' & Hs' & [a' Ha'] & Ho').
  repeat split; try congruence.
  - exists (a ++ a'). rewrite Ha', Ha. now rewrite app_assoc.
  - intros Hne. rewrite Ho' by congruence. now apply Ho.
Qed.

Lemma Forall2_evolves_refl (aid : string) ms : Forall2 (evolves aid) ms ms.
Proof. induction ms; constructor; auto using evolves_refl. Qed.

Lemma Forall2_evolves_trans (aid : string) ms1 ms2 ms3 :
  Forall2 (evolves aid) ms1 ms2 -> Forall2 (evolves aid) ms2 ms3 ->
  Forall2 (evolves aid) ms1 ms3.
Proof.
  intros H. revert ms3. induction H; intros ms3 H'; inversion H'; subst;
    constructor; eauto using evolves_trans.
Qed.

Lemma updateAssistant_evolves (aid : string) (f : Message Num -> Message Num) ms :
  (forall m, id (f m) = id m /\ type (f m) = type m /\ timestamp (f m) = timestamp m
             /\ exists added, default [] (reasoningSteps (f m))
                              = default [] (reasoningSteps m) ++ added) ->
  Forall2 (evolves aid) ms (updateAssistant aid f ms).
Proof.
  intros Hf. unfold updateAssistant.
  induction ms as [|m ms IH]; cbn; constructor; [|exact IH].
  destruct (String.eqb_spec (id m) aid) as [E|E]; [|apply evolves_refl].
  destruct (Hf m) as (Hi & Ht & Hs & Ha). repeat split; auto. congruence.
Qed.

Lemma handleLine_evolves (aid line : string) ms :
  Forall2 (evolves aid) ms (messages_of (handleLine aid line ms)).
Proof.
  destruct (handleLine_effect line) as (f & brk & -> & _ & Hf).
  assert (H : Forall2 (evolves aid) ms (updateAssistant aid f ms)).
  { apply updateAssistant_evolves. intros m.
    destruct (Hf m) as (Hi & Ht & Hs & Ha & _). eauto 6. }
  now destruct brk.
Qed.

Lemma forLines_evolves (aid : string) (lines : list string) ms :
  Forall2 (evolves aid) ms (messages_of (forLines aid lines ms)).
Proof.
  revert ms. induction lines as [|line rest IH]; intros ms;
    [apply Forall2_evolves_refl|].
  cbn. pose proof (handleLine_evolves aid line ms) as H.
  destruct (handleLine aid line ms) as [ms'|ms']; cbn in H; [|exact H].
  eapply Forall2_evolves_trans; [exact H | apply IH].
Qed.

Lemma readTexts_evolves (aid : string) (reads : list string) (buffer : string) ms :
  Forall2 (evolves aid) ms (fst (readTexts aid reads buffer ms)).
Proof.
  revert buffer ms. induction reads as [|value rest IH]; intros buffer ms;
    [apply Forall2_evolves_refl|].
  cbn [readTexts nextLines].
  eapply Forall2_evolves_trans; [apply forLines_evolves | apply IH].
Qed.

Lemma readLoop_evolves (aid : string) (reads : list string) (decoder : Decoder)
      (buffer : string) ms :
  Forall2 (evolves aid) ms (fst (readLoop aid reads decoder buffer ms)).
Proof. rewrite readLoop_texts. apply readTexts_evolves. Qed.

(** The messages of a submission that passes the guard: the messages that
    were there, the user message and the assistant message, evolved. *)
Lemma handleSubmit_evolves (clock : Clock) (resp : Response) (st : State Num) :
  submitDisabled st = false ->
  Forall2 (evolves (id (assistantMessage (Num := Num) clock)))
          (messages st ++ [userMessage clock (String_trim (inputValue st));
                           assistantMessage clock])
          (messages (handleSubmit clock resp st)).
Proof.
  unfold submitDisabled, handleSubmit. rewrite orb_comm. intros ->.
  rewrite <- app_assoc. cbn [app].
  set (aid := id (assistantMessage clock)).
  set (ms := messages st ++ _).
  assert (Hreq : Forall2 (evolves aid) ms (fst (request aid resp ms))).
  { destruct resp as [e|status| |reads ending]; cbn;
      try apply Forall2_evolves_refl.
    destruct ending; cbn; apply readLoop_evolves. }
  destruct (request aid resp ms) as [ms' [err|]]; cbn [fst] in Hreq; cbn [messages];
    [|exact Hreq].
  eapply Forall2_evolves_trans; [exact Hreq|].
  apply updateAssistant_evolves. intros m. repeat split; auto.
  exists []. cbn. now rewrite app_nil_r.
Qed.

(** X3.  A stream never adds, drops or reorders messages, and never
    changes an id, a type or a timestamp; in particular, once the history
    has been cleared, the frames that still arrive bring nothing back. *)
Theorem stream_keeps_the_list (aid : string) (reads : list string)
        (decoder : Decoder) (buffer : string) (ms : list (Message Num)) :
  map id (fst (readLoop aid reads decoder buffer ms)) = map id ms
  /\ map type (fst (readLoop aid reads decoder buffer ms)) = map type ms
  /\ map timestamp (fst (readLoop aid reads decoder buffer ms)) = map timestamp ms
  /\ fst (readLoop aid reads decoder buffer []) = [].
Proof.
  assert (H : forall ms0, Forall2 (fun a b : Message Num =>
                   id b = id a /\ type b = type a /\ timestamp b = timestamp a)
                ms0 (fst (readLoop aid reads decoder buffer ms0))).
  { intros ms0. eapply Forall2_impl; [apply readLoop_evolves|].
    intros a b (Hi & Ht & Hs & _). cbn. auto. }
  repeat split.
  - induction (H ms) as [|a b l l' (Hi & _) _ IH]; cbn; congruence.
  - induction (H ms) as [|a b l l' (_ & Ht & _) _ IH]; cbn; congruence.
  - induction (H ms) as [|a b l l' (_ & _ & Hs) _ IH]; cbn; congruence.
  - pose proof (H []) as H0. now inversion H0.
Qed.

(** X4.  A submission leaves every earlier message whose id is not the id
    of the new assistant message exactly as it was, at its place. *)
Theorem earlier_messages_untouched (clock : Clock) (resp : Response) (st : State Num)
        (i : nat) (m : Message Num) :
  messages st !! i = Some m ->
  id m <> id (assistantMessage (Num := Num) clock) ->
  messages (handleSubmit clock resp st) !! i = Some m.
Proof.
  intros Hm Hid.
  destruct (submitDisabled st) eqn:Hd.
  - unfold submitDisabled in Hd. unfold handleSubmit.
    rewrite orb_comm, Hd. exact Hm.
  - pose proof (handleSubmit_evolves clock resp st Hd) as H.
    assert (Hm' : (messages st ++ [userMessage clock (String_trim (inputValue st));
                                   assistantMessage clock]) !! i = Some m).
    { now apply lookup_app_l_Some. }
    destruct (Forall2_lookup_l _ _ _ _ _ H Hm') as (m' & Hm'' & (_ & _ & _ & _ & Ho)).
    rewrite Hm''. f_equal. now apply Ho.
Qed.

(** X5.  Reasoning steps are only ever appended: after any stream, the
    steps of every message start with the steps it had. *)
Theorem reasoning_steps_append_only (aid : string) (reads : list string)
        (decoder : Decoder) (buffer : string) (ms : list (Message Num)) (i : nat)
        (m : Message Num) :
  ms !! i = Some m ->
  exists m' added,
    fst (readLoop aid reads decoder buffer ms) !! i = Some m'
    /\ default [] (reasoningSteps m') = default [] (reasoningSteps m) ++ added.
Proof.
  intros Hm.
  destruct (Forall2_lookup_l _ _ _ _ _ (readLoop_evolves aid reads decoder buffer ms) Hm)
    as (m' & Hm' & (_ & _ & _ & [added Ha] & _)).
  eauto.
Qed.

End Effects.

Lemma earlier_messages_untouched_witness :
  messages (handleSubmit laterClock (Streaming [wire finalFrame] Done)
              (mkState inProgress "And columns?" false None)) !! 1
  = Some (assistantMessage clock).
Proof.
  apply (earlier_messages_untouched laterClock (Streaming [wire finalFrame] Done)
           (mkState inProgress "And columns?" false None) 1 (assistantMessage clock)).
  - reflexivity.
  - vm_compute. discriminate.
Defined.

Lemma reasoning_steps_append_only_witness :
  exists m' added,
    fst (readLoop aid [bom +:+ wire thoughtFrame; wire thoughtFrame]
                  TextDecoder_new "" inProgress) !! 1 = Some m'
    /\ default [] (reasoningSteps m')
       = default [] (reasoningSteps (assistantMessage (Num := RefNum) clock)) ++ added.
Proof.
  apply (reasoning_steps_append_only aid [bom +:+ wire thoughtFrame; wire thoughtFrame]
           TextDecoder_new "" inProgress 1 (assistantMessage clock)).
  reflexivity.
Defined.

(** ** Steps and tokens in the order of the frames *)

Section Order.
Context {Num : Type} `{RT : JSRuntime Num}.
Implicit Types (ms : list (Message Num)) (m : Message Num).

Lemma forLines_without_final (aid : string) (lines : list string) ms (i : nat) m :
  Forall (fun line => ~ hasType line "final_result") lines ->
  ms !! i = Some m -> id m = aid ->
  exists m',
    messages_of (forLines aid lines ms) !! i = Some m'
    /\ id m' = aid
    /\ default [] (reasoningSteps m')
       = default [] (reasoningSteps m) ++ omap stepOf lines
    /\ content m' = appendAll (omap tokenOf lines) (content m).
Proof.
  revert ms m. induction lines as [|line rest IH]; intros ms m Hno Hm Hid.
  - exists m. cbn. rewrite app_nil_r. auto.
  - apply Forall_cons in Hno as [Hline Hrest].
    destruct (handleLine_effect line) as (f & brk & Hh & Hbrk & Hf).
    destruct brk; [exfalso; apply Hline, Hbrk; reflexivity|].
    cbn [forLines]. rewrite Hh.
    destruct (Hf m) as (Hi & _ & _ & Hsteps & _ & Hcontent).
    assert (Hm1 : updateAssistant aid f ms !! i = Some (f m)).
    { rewrite updateAssistant_lookup, Hm. cbn.
      now rewrite (proj2 (String.eqb_eq _ _) Hid). }
    destruct (IH _ (f m) Hrest Hm1 ltac:(congruence)) as (m' & Hm' & Hid' & Hs' & Hc').
    exists m'. repeat split; auto.
    + rewrite Hs', Hsteps, <- app_assoc. f_equal.
      cbn [omap list_omap]. now destruct (stepOf line).
    + rewrite Hc', (Hcontent eq_refl). cbn [omap list_omap].
      now destruct (tokenOf line).
Qed.

Lemma readTexts_without_final (aid : string) (reads : list string) (buffer : string)
      ms (i : nat) m :
  Forall (fun line => ~ hasType line "final_result") (concat (linesOfReads reads buffer)) ->
  ms !! i = Some m -> id m = aid ->
  exists m',
    fst (readTexts aid reads buffer ms) !! i = Some m'
    /\ id m' = aid
    /\ default [] (reasoningSteps m')
       = default [] (reasoningSteps m) ++ omap stepOf (concat (linesOfReads reads buffer))
    /\ content m' = appendAll (omap tokenOf (concat (linesOfReads reads buffer))) (content m).
Proof.
  revert buffer ms m. induction reads as [|value rest IH]; intros buffer ms m Hno Hm Hid.
  - exists m. cbn. rewrite app_nil_r. auto.
  - cbn [linesOfReads readTexts nextLines concat] in *.
    apply Forall_app in Hno as [Hlines Hrest].
    destruct (forLines_without_final aid _ ms i m Hlines Hm Hid)
      as (m1 & Hm1 & Hid1 & Hs1 & Hc1).
    destruct (IH _ _ m1 Hrest Hm1 Hid1) as (m' & Hm' & Hid' & Hs' & Hc').
    exists m'. repeat split; auto.
    + rewrite Hs', Hs1, omap_app. now rewrite app_assoc.
    + rewrite Hc', Hc1, omap_app. unfold appendAll. now rewrite fold_left_app.
Qed.

Lemma readLoop_without_final (aid : string) (reads : list string) ms (i : nat) m :
  Forall (fun line => ~ hasType line "final_result") (completeLines (textOf reads)) ->
  ms !! i = Some m -> id m = aid ->
  exists m',
    fst (readLoop aid reads TextDecoder_new "" ms) !! i = Some m'
    /\ id m' = aid
    /\ default [] (reasoningSteps m')
       = default [] (reasoningSteps m) ++ omap stepOf (completeLines (textOf reads))
    /\ content m' = appendAll (omap tokenOf (completeLines (textOf reads))) (content m).
Proof.
  rewrite <- linesHandedOver_complete, readLoop_texts.
  apply readTexts_without_final.
Qed.

(** X6.  In a stream without a [final_result] frame, the steps of the
    assistant message are the steps it had followed by the steps of the
    [reasoning_step] frames, one for each, in the order of the complete
    lines of the decoded text of the stream, however the stream is cut
    into reads. *)
Theorem steps_follow_the_frames (aid : string) (reads : list string)
        (ms : list (Message Num)) (i : nat) (m : Message Num) :
  Forall (fun line => ~ hasType line "final_result") (completeLines (textOf reads)) ->
  ms !! i = Some m ->
  id m = aid ->
  exists m',
    fst (readLoop aid reads TextDecoder_new "" ms) !! i = Some m'
    /\ default [] (reasoningSteps m')
       = default [] (reasoningSteps m) ++ omap stepOf (completeLines (textOf reads)).
Proof.
  intros Hno Hm Hid.
  destruct (readLoop_without_final aid reads ms i m Hno Hm Hid)
    as (m' & Hm' & _ & Hs & _).
  eauto.
Qed.

(** X7.  In a stream without a [final_result] frame whose tokens are
    strings, the content of the assistant message is the text it had
    followed by the tokens, in the order of the frames of the decoded
    text. *)
Theorem tokens_are_concatenated (aid : string) (reads : list string)
        (ms : list (Message Num)) (i : nat) (m : Message Num) (text : string)
        (tokens : list string) :
  Forall (fun line => ~ hasType line "final_result") (completeLines (textOf reads)) ->
  omap tokenOf (completeLines (textOf reads)) = map JString tokens ->
  ms !! i = Some m ->
  id m = aid ->
  content m = JString text ->
  exists m',
    fst (readLoop aid reads TextDecoder_new "" ms) !! i = Some m'
    /\ content m' = JString (text +:+ streamOf tokens).
Proof.
  intros Hno Htokens Hm Hid Htext.
  destruct (readLoop_without_final aid reads ms i m Hno Hm Hid)
    as (m' & Hm' & _ & _ & Hc).
  exists m'. split; [exact Hm'|].
  rewrite Hc, Htokens, Htext. clear.
  unfold appendAll. revert text.
  induction tokens as [|token rest IH]; intros text; cbn [map fold_left streamOf fold_right].
  - now rewrite string_app_empty_r.
  - assert (Hor : js_or (JString text) (JString "") = JString (Num := Num) text).
    { unfold js_or. cbn. destruct (String.eqb_spec text ""); cbn; congruence. }
    rewrite Hor. cbn [js_add]. rewrite IH. fold (streamOf rest).
    now rewrite string_app_assoc.
Qed.

End Order.

Lemma steps_follow_the_frames_witness :
  exists m',
    fst (readLoop aid [bom +:+ wire thoughtFrame +:+ "data: {";
                       "oops" +:+ nl +:+ wire thoughtFrame]
                  TextDecoder_new "" inProgress) !! 1 = Some m'
    /\ length (default [] (reasoningSteps m')) = 2.
Proof.
  destruct (steps_follow_the_frames aid
              [bom +:+ wire thoughtFrame +:+ "data: {"; "oops" +:+ nl +:+ wire thoughtFrame]
              inProgress 1 (assistantMessage clock)) as (m' & Hm' & Hsteps).
  - match goal with
    | |- Forall _ ?lines =>
        let lines' := eval vm_compute in lines in
        replace lines with lines' by (vm_compute; reflexivity)
    end.
    repeat constructor; intros H; vm_compute in H; discriminate H.
  - reflexivity.
  - reflexivity.
  - exists m'. split; [exact Hm'|]. rewrite Hsteps. vm_compute. reflexivity.
Defined.

Lemma tokens_are_concatenated_witness :
  exists m',
    fst (readLoop aid
           (cutAt (String.length (bom +:+ tokenFrame "caf") - 1)
                  (bom +:+ wire (tokenFrame ("caf" +:+ eAcuteLead +:+ eAcuteTrail))
                   +:+ wire thoughtFrame +:+ wire (tokenFrame " is 1")))
           TextDecoder_new "" inProgress) !! 1 = Some m'
    /\ content m' = JString ("caf" +:+ eAcuteLead +:+ eAcuteTrail +:+ " is 1").
Proof.
  destruct (tokens_are_concatenated aid
              (cutAt (String.length (bom +:+ tokenFrame "caf") - 1)
                     (bom +:+ wire (tokenFrame ("caf" +:+ eAcuteLead +:+ eAcuteTrail))
                      +:+ wire thoughtFrame +:+ wire (tokenFrame " is 1")))
              inProgress 1 (assistantMessage clock) ""
              ["caf" +:+ eAcuteLead +:+ eAcuteTrail; " is 1"]) as (m' & Hm' & Hcontent).
  - match goal with
    | |- Forall _ ?lines =>
        let lines' := eval vm_compute in lines in
        replace lines with lines' by (vm_compute; reflexivity)
    end.
    repeat constructor; intros H; vm_compute in H; discriminate H.
  - vm_compute. reflexivity.
  - reflexivity.
  - reflexivity.
  - reflexivity.
  - exists m'. split; [exact Hm'|]. rewrite Hcontent. vm_compute. reflexivity.
Defined.

(** ** How a submission ends *)

Section Endings.
Context {Num : Type} `{RT : JSRuntime Num}.
Implicit Types (ms : list (Message Num)) (m : Message Num).

Lemma stopped_kept (aid : string) ms ms' :
  stopped aid ms ->
  Forall2 (evolves aid) ms ms' -> Forall2 keepsOrStops ms ms' ->
  stopped aid ms'.
Proof.
  intros Hs He Hk i m' Hm' Hid.
  destruct (Forall2_lookup_r _ _ _ _ _ He Hm') as (m & Hm & (Hi & _)).
  destruct (Forall2_lookup_r _ _ _ _ _ Hk Hm') as (m0 & Hm0 & [Hkeep|Hstop]); auto.
  assert (m0 = m) by congruence. subst m0.
  rewrite Hkeep. apply (Hs i m Hm). congruence.
Qed.

Lemma handleLine_stops (aid line : string) ms :
  stops line -> stopped aid (messages_of (handleLine aid line ms)).
Proof.
  intros Hstops i m' Hm' Hid.
  destruct (handleLine_effect line) as (f & brk & Hh & _ & Hf).
  rewrite Hh in Hm'.
  assert (Hm : updateAssistant aid f ms !! i = Some m') by now destruct brk.
  rewrite updateAssistant_lookup in Hm.
  destruct (ms !! i) as [m|]; [|discriminate]. cbn in Hm. injection Hm as <-.
  destruct (Hf m) as (Hi & _ & _ & _ & Hfalse & _).
  destruct (String.eqb_spec (id m) aid) as [E|E]; [now apply Hfalse | contradiction].
Qed.

Lemma forLines_stops (aid : string) (lines : list string) ms :
  Exists stops lines -> stopped aid (messages_of (forLines aid lines ms)).
Proof.
  revert ms. induction lines as [|line rest IH]; intros ms Hex; [inversion Hex|].
  cbn [forLines].
  pose proof (handleLine_stops aid line ms) as Hline.
  destruct (handleLine aid line ms) as [ms'|ms'] eqn:E.
  - apply Exists_cons in Hex as [Hs|Hrest]; [|now apply IH].
    eapply stopped_kept; [exact (Hline Hs) | apply forLines_evolves
                          | apply forLines_keepsOrStops].
  - apply Hline. right. eapply handleLine_Exit. exact E.
Qed.

Lemma readTexts_stops (aid : string) (reads : list string) (buffer : string) ms :
  Exists stops (concat (linesOfReads reads buffer)) ->
  stopped aid (fst (readTexts aid reads buffer ms)).
Proof.
  revert buffer ms. induction reads as [|value rest IH]; intros buffer ms Hex;
    [inversion Hex|].
  cbn [linesOfReads readTexts nextLines concat] in *.
  apply Exists_app in Hex as [Hlines|Hrest]; [|now apply IH].
  eapply stopped_kept; [exact (forLines_stops aid _ ms Hlines)
                       | apply readTexts_evolves | apply readTexts_keepsOrStops].
Qed.

Lemma readLoop_stops (aid : string) (reads : list string) ms :
  Exists stops (completeLines (textOf reads)) ->
  stopped aid (fst (readLoop aid reads TextDecoder_new "" ms)).
Proof.
  rewrite <- linesHandedOver_complete, readLoop_texts. apply readTexts_stops.
Qed.

Lemma request_evolves (aid : string) (resp : Response) ms :
  Forall2 (evolves aid) ms (fst (request aid resp ms)).
Proof.
  destruct resp as [e|status| |reads ending]; cbn; try apply Forall2_evolves_refl.
  destruct ending; cbn; apply readLoop_evolves.
Qed.

(** A list that evolved from a list ending in the assistant message ends
    in a message with its id and type. *)
Lemma evolved_last (aid : string) (earlier : list (Message Num)) (a : Message Num) ms :
  Forall2 (evolves aid) (earlier ++ [a]) ms ->
  exists earlier' a',
    ms = earlier' ++ [a'] /\ length earlier' = length earlier
    /\ id a' = id a /\ type a' = type a.
Proof.
  intros H. apply Forall2_app_inv_l in H as (k1 & k2 & H1 & H2 & ->).
  inversion H2 as [|? a' ? ? (Hi & Ht & _) H3]; subst. inversion H3; subst.
  exists k1, a'. repeat split; auto. symmetry. eapply Forall2_length; eauto.
Qed.

Lemma lastAssistant_last (earlier : list (Message Num)) (a : Message Num) :
  type a = assistant -> lastAssistant (earlier ++ [a]) = Some a.
Proof.
  intros Ht. unfold lastAssistant. rewrite rev_app_distr. cbn.
  unfold isAssistant. now rewrite Ht.
Qed.

(** X8.  If the decoded stream brings a complete [chat_done] or
    [final_result] line, then however it is cut into reads and whatever
    else it carries,
    the submission ends with the assistant message, last in the list, not
    streaming, and the spinner is not shown. *)
Theorem stop_frame_ends_streaming (clock : Clock) (reads : list string)
        (ending : StreamEnd) (st : State Num) :
  submitDisabled st = false ->
  Exists stops (completeLines (textOf reads)) ->
  showSpinner (messages (handleSubmit clock (Streaming reads ending) st)) = false
  /\ exists a, last (messages (handleSubmit clock (Streaming reads ending) st)) = Some a
               /\ id a = id (assistantMessage (Num := Num) clock)
               /\ isStreaming a = Some false.
Proof.
  intros Hd Hex.
  pose proof (handleSubmit_evolves clock (Streaming reads ending) st Hd) as Hev.
  change [userMessage clock (String_trim (inputValue st)); assistantMessage clock]
    with ([userMessage (Num := Num) clock (String_trim (inputValue st))]
            ++ [assistantMessage clock]) in Hev.
  rewrite app_assoc in Hev.
  destruct (evolved_last _ _ _ _ Hev) as (earlier' & a' & Hms & _ & Hid & Hty).
  assert (Hstopped : stopped (id (assistantMessage (Num := Num) clock))
                             (messages (handleSubmit clock (Streaming reads ending) st))).
  { clear Hms. unfold submitDisabled in Hd. unfold handleSubmit.
    rewrite orb_comm, Hd. cbn [request].
    set (aid := id (assistantMessage clock)). set (ms := (_ ++ _) ++ _).
    assert (Hs : stopped aid (fst (readLoop aid reads TextDecoder_new "" ms))).
    { now apply readLoop_stops. }
    destruct ending as [|e]; cbn [messages]; [exact Hs|].
    eapply stopped_kept; [exact Hs| |].
    - apply updateAssistant_evolves. intros m. repeat split; auto.
      exists []. cbn. now rewrite app_nil_r.
    - apply updateAssistant_keepsOrStops, wellBehaved_applyFailure. }
  rewrite Hms in *.
  assert (Hfalse : isStreaming a' = Some false).
  { apply (Hstopped (length earlier') a'); [|exact Hid].
    rewrite lookup_app_r by lia. now rewrite Nat.sub_diag. }
  split.
  - unfold showSpinner. rewrite lastAssistant_last by (rewrite Hty; reflexivity).
    now rewrite Hfalse.
  - exists a'. rewrite last_snoc. auto.
Qed.

(** X9.  Whenever a submission ends with the error banner set, the
    assistant message, last in the list, carries the same error in its
    content and has stopped streaming: its answer box shows the apology in
    the final look, the spinner is gone and the form is no longer loading. *)
Theorem failed_request_is_reported (clock : Clock) (resp : Response) (st : State Num)
        (message : string) :
  submitDisabled st = false ->
  error (handleSubmit clock resp st) = Some message ->
  exists a,
    last (messages (handleSubmit clock resp st)) = Some a
    /\ content a = JString ("Sorry, I encountered an error: " +:+ message)
    /\ isStreaming a = Some false
    /\ answerBox a = Some (JString ("Sorry, I encountered an error: " +:+ message), false)
    /\ showSpinner (messages (handleSubmit clock resp st)) = false
    /\ isLoading (handleSubmit clock resp st) = false.
Proof.
  intros Hd. unfold submitDisabled in Hd. unfold handleSubmit.
  rewrite orb_comm, Hd.
  set (aid := id (assistantMessage clock)).
  set (ms := (messages st ++ _) ++ _).
  pose proof (request_evolves aid resp ms) as Hev.
  destruct (request aid resp ms) as [ms' [err|]]; cbn [fst] in Hev;
    cbn [error messages isLoading]; [|discriminate].
  intros [= Hmsg]. rewrite Hmsg.
  subst ms. destruct (evolved_last _ _ _ _ Hev) as (earlier' & a' & -> & _ & Hid & Hty).
  unfold updateAssistant. rewrite map_app. cbn [map].
  change (id (assistantMessage clock)) with aid in Hid.
  rewrite (proj2 (String.eqb_eq _ _) Hid).
  exists (applyFailure message a'). rewrite last_snoc.
  assert (Hbox : answerBox (applyFailure message a')
                 = Some (JString ("Sorry, I encountered an error: " +:+ message), false)).
  { unfold answerBox, isAssistant. cbn. rewrite Hty. reflexivity. }
  repeat split; auto.
  unfold showSpinner. rewrite lastAssistant_last; [reflexivity|]. cbn. now rewrite Hty.
Qed.

(** X10.  The submit handler does nothing exactly when the submit button
    is disabled; otherwise it adds two messages. *)
Theorem disabled_means_nothing_happens (clock : Clock) (resp : Response) (st : State Num) :
  (submitDisabled st = true <-> handleSubmit clock resp st = st)
  /\ (submitDisabled st = false ->
      length (messages (handleSubmit clock resp st)) = length (messages st) + 2).
Proof.
  assert (Hlen : submitDisabled st = false ->
                 length (messages (handleSubmit clock resp st)) = length (messages st) + 2).
  { intros Hd. pose proof (handleSubmit_evolves clock resp st Hd) as Hev.
    apply Forall2_length in Hev. rewrite <- Hev, length_app. reflexivity. }
  split; [|exact Hlen]. split.
  - unfold submitDisabled, handleSubmit. rewrite orb_comm. now intros ->.
  - intros Hsame. destruct (submitDisabled st) eqn:Hd; [reflexivity|].
    specialize (Hlen eq_refl). rewrite Hsame in Hlen. lia.
Qed.

(** X11.  Once the initial load is complete, a submission that goes
    through makes the scroll effect scroll to the bottom, provided the
    count remembered by the effect is not ahead of the messages. *)
Theorem accepted_submission_scrolls (clock : Clock) (resp : Response) (st : State Num)
        (refs : ScrollRefs) :
  submitDisabled st = false ->
  prevMessageCountRef refs <= length (messages st) ->
  fst (scrollEffect true (messages (handleSubmit clock resp st)) refs) = true.
Proof.
  intros Hd Hcount.
  pose proof (handleSubmit_evolves clock resp st Hd) as Hev.
  apply Forall2_length in Hev. rewrite length_app in Hev. cbn in Hev.
  unfold scrollEffect. cbn [fst].
  assert (Hgrew : (prevMessageCountRef refs
                   <? length (messages (handleSubmit clock resp st)))%nat = true).
  { apply Nat.ltb_lt. lia. }
  now rewrite Hgrew.
Qed.

End Endings.

Lemma stop_frame_ends_streaming_witness :
  showSpinner
    (messages (handleSubmit clock
                 (Streaming [bom +:+ chatDoneFrame; nl +:+ wire errorFrame] Done)
                 (fresh "How many rows?")))
  = false.
Proof.
  apply (stop_frame_ends_streaming clock
           [bom +:+ chatDoneFrame; nl +:+ wire errorFrame] Done
           (fresh "How many rows?")).
  - vm_compute. reflexivity.
  - match goal with
    | |- Exists _ ?lines =>
        let lines' := eval vm_compute in lines in
        replace lines with lines' by (vm_compute; reflexivity)
    end.
    apply Exists_cons_hd. left. vm_compute. reflexivity.
Defined.

Lemma failed_request_is_reported_witness :
  exists a,
    last (messages (handleSubmit clock (Streaming [wire (tokenFrame "Res")]
                                          (ReadRejected (ErrorObj "network error")))
                      (fresh "How many rows?"))) = Some a
    /\ content a = JString "Sorry, I encountered an error: network error".
Proof.
  destruct (failed_request_is_reported clock
              (Streaming [wire (tokenFrame "Res")] (ReadRejected (ErrorObj "network error")))
              (fresh "How many rows?") "network error") as (a & Hlast & Hcontent & _).
  - vm_compute. reflexivity.
  - vm_compute. reflexivity.
  - exists a. split; [exact Hlast | exact Hcontent].
Defined.

Lemma disabled_means_nothing_happens_witness :
  length (messages (handleSubmit clock (HttpNotOk 500) (fresh "How many rows?"))) = 2.
Proof.
  apply (disabled_means_nothing_happens clock (HttpNotOk 500) (fresh "How many rows?")).
  vm_compute. reflexivity.
Defined.

Lemma accepted_submission_scrolls_witness :
  fst (scrollEffect true
         (messages (handleSubmit laterClock NoBody (mkState inProgress "again" false None)))
         (mkScrollRefs 2 [0; 0] [false; true]))
  = true.
Proof.
  apply (accepted_submission_scrolls laterClock NoBody
           (mkState inProgress "again" false None) (mkScrollRefs 2 [0; 0] [false; true])).
  - vm_compute. reflexivity.
  - vm_compute. lia.
Defined.

(** ** The scroll effect *)

Section Scrolling.
Context {Num : Type} `{RT : JSRuntime Num}.
Implicit Types (ms : list (Message Num)) (m : Message Num).

Lemma stepsLoop_first_quiet (prev : list nat) (m0 : Message Num) ms (current : list nat) :
  (prev !! 0 = None \/ prev !! 0 = Some 0) ->
  streamingState m0 = false ->
  stepsLoop prev (m0 :: ms) 0 (0 :: current) = false.
Proof. intros [H|H] Hs; cbn; rewrite H; cbn; exact Hs. Qed.

Lemma stepsLoop_idle (prev : list nat) ms (i : nat) (current : list nat) :
  Forall (fun m => streamingState m = false) ms ->
  stepsLoop prev ms i current = false.
Proof.
  intros Hidle. revert i. induction current as [|c rest IH]; intros i; [reflexivity|].
  cbn. destruct (match prev !! i with Some p => _ | None => true end); [|apply IH].
  destruct (ms !! i) as [m|] eqn:Hm; [|reflexivity].
  eapply Forall_lookup_1 in Hidle; eauto.
Qed.

Lemma finishedLoop_same (states : list bool) (i : nat) (current : list bool) :
  (forall j c, current !! j = Some c -> states !! (i + j) = Some c) ->
  finishedLoop states i current = false.
Proof.
  revert i. induction current as [|c rest IH]; intros i H; [reflexivity|].
  cbn. pose proof (H 0 c eq_refl) as H0. rewrite Nat.add_0_r in H0. rewrite H0.
  rewrite andb_negb_r. apply IH. intros j c' Hj.
  specialize (H (S j) c' Hj). now rewrite Nat.add_succ_r in H.
Qed.

Lemma finishedLoop_unchanged (states : list bool) : finishedLoop states 0 states = false.
Proof. apply finishedLoop_same. auto. Qed.

(** X12.  The effect settles: run again on the same messages, none of
    them streaming, it does not ask for another scroll. *)
Theorem scroll_effect_settles (ms : list (Message Num)) (refs : ScrollRefs) :
  Forall (fun m => streamingState m = false) ms ->
  fst (scrollEffect true ms (snd (scrollEffect true ms refs))) = false.
Proof.
  intros Hidle. unfold scrollEffect. cbn [fst snd prevMessageCountRef
    prevReasoningStepsRef prevStreamingStatesRef].
  rewrite finishedLoop_unchanged, stepsLoop_idle by assumption.
  assert (Hcount : ((if (prevMessageCountRef refs <? length ms)%nat
                     then length ms else prevMessageCountRef refs) <? length ms)%nat
                   = false).
  { destruct (Nat.ltb_spec (prevMessageCountRef refs) (length ms));
      apply Nat.ltb_ge; lia. }
  rewrite Hcount. now destruct (0 <? length (map stepCount ms))%nat.
Qed.

(** X13.  When the first message has no reasoning steps and is not
    streaming, as the user message that opens a conversation, the loop over
    the step counts stops there: whatever steps the later messages gain,
    the effect does not scroll as long as no message is added and no
    streaming state changes. *)
Theorem first_message_masks_new_steps (m0 : Message Num) (rest rest' : list (Message Num))
        (refs : ScrollRefs) :
  stepCount m0 = 0 ->
  streamingState m0 = false ->
  map streamingState rest' = map streamingState rest ->
  fst (scrollEffect true (m0 :: rest') (snd (scrollEffect true (m0 :: rest) refs))) = false.
Proof.
  intros Hcount Hs Hsame.
  assert (Hlen : length rest' = length rest).
  { apply (f_equal length) in Hsame. now rewrite !length_map in Hsame. }
  unfold scrollEffect. cbn [fst snd prevMessageCountRef prevReasoningStepsRef
    prevStreamingStatesRef].
  assert (Hgrew : ((if (prevMessageCountRef refs <? length (m0 :: rest))%nat
                    then length (m0 :: rest) else prevMessageCountRef refs)
                   <? length (m0 :: rest'))%nat = false).
  { cbn [length]. rewrite Hlen.
    destruct (Nat.ltb_spec (prevMessageCountRef refs) (S (length rest)));
      apply Nat.ltb_ge; lia. }
  rewrite Hgrew.
  change (0 <? length (map stepCount (m0 :: rest)))%nat with true.
  change (0 <? length (map stepCount (m0 :: rest')))%nat with true.
  cbn [map orb]. rewrite Hcount, Hsame.
  rewrite stepsLoop_first_quiet by (auto; now right).
  apply finishedLoop_unchanged.
Qed.

End Scrolling.

Lemma scroll_effect_settles_witness :
  fst (scrollEffect true answered
         (snd (scrollEffect true answered (mkScrollRefs 0 [] [false; true]))))
  = false.
Proof.
  apply (scroll_effect_settles answered (mkScrollRefs 0 [] [false; true])).
  repeat constructor.
Defined.

Lemma first_message_masks_new_steps_witness :
  fst (scrollEffect true reasoning (snd (scrollEffect true inProgress (mkScrollRefs 0 [] []))))
  = false.
Proof.
  apply (first_message_masks_new_steps (userMessage (Num := RefNum) clock "How many rows?")
           [assistantMessage clock] [addReasoningStep planStep (assistantMessage clock)]
           (mkScrollRefs 0 [] [])); reflexivity.
Defined.

(** ** Loading, saving and clearing the history *)

Section Persistence.
Context {Num : Type} `{RT : JSRuntime Num}.
Import Startup.

Lemma revive_defined (v : JSValue Num) :
  v <> JNull -> v <> JUndefined ->
  Date_accepts (field v "timestamp") = true ->
  revive v = Some (mkRevived (ownProps v) (field v "timestamp")).
Proof.
  intros Hn Hu. unfold revive, field.
  destruct v; cbn; try congruence; now intros ->.
Qed.

Lemma revive_rejected (v : JSValue Num) :
  Date_accepts (field v "timestamp") = false -> revive v = None.
Proof.
  unfold revive, field. destruct (get_prop v "timestamp") as [ts|]; cbn; [|reflexivity].
  now intros ->.
Qed.

Lemma mapM_revive_all (elems : list (JSValue Num)) :
  Forall (fun v => v <> JNull /\ v <> JUndefined
                   /\ Date_accepts (field v "timestamp") = true) elems ->
  mapM revive elems
  = Some (map (fun v => mkRevived (ownProps v) (field v "timestamp")) elems).
Proof.
  induction 1 as [|v rest (Hn & Hu & Hd) _ IH]; [reflexivity|].
  cbn. rewrite revive_defined, IH by assumption. reflexivity.
Qed.

Lemma mapM_revive_none (elems : list (JSValue Num)) (v : JSValue Num) :
  v ∈ elems -> revive v = None -> mapM revive elems = None.
Proof.
  induction elems as [|v' rest IH]; intros Hin Hv; [now apply elem_of_nil in Hin|].
  apply elem_of_cons in Hin as [<-|Hin]; cbn; [now rewrite Hv|].
  rewrite (IH Hin Hv). now destruct (revive v').
Qed.

(** X14.  A stored history that parses to an array without [null]
    elements, each with a [timestamp] that [new Date] takes without
    throwing, is loaded whole and in order: one message per element, with
    the element's own properties and a date made from its [timestamp];
    the store is left as it is and the remembered count is the number of
    messages. *)
Theorem history_is_loaded (store : gmap string string) (saved : string)
        (elems : list (JSValue Num)) :
  store !! "chatHistory" = Some saved ->
  saved <> "" ->
  JSON_parse saved = Some (JArray elems) ->
  Forall (fun v => v <> JNull /\ v <> JUndefined
                   /\ Date_accepts (field v "timestamp") = true) elems ->
  loaded (loadHistory (initialState store))
  = map (fun v => mkRevived (ownProps v) (field v "timestamp")) elems
  /\ localStorage (loadHistory (initialState store)) = store
  /\ prevMessageCount (loadHistory (initialState store)) = length elems
  /\ initialLoadComplete (loadHistory (initialState store)) = true.
Proof.
  intros Hsaved Hne Hparse Hall.
  unfold loadHistory, initialState, parseHistory. cbn [localStorage].
  rewrite Hsaved. apply String.eqb_neq in Hne. rewrite Hne, Hparse. cbn [negb].
  rewrite mapM_revive_all by assumption. cbn. now rewrite length_map.
Qed.

(** X15.  A stored history that parses but is not an array, or is an
    array with a [null] element or with an element whose [timestamp]
    makes [new Date] throw, is removed from the store like one that does
    not parse, and no message is loaded. *)
Theorem unusable_history_removed (store : gmap string string) (saved : string)
        (parsed : JSValue Num) :
  store !! "chatHistory" = Some saved ->
  saved <> "" ->
  JSON_parse saved = Some parsed ->
  (forall elems, parsed <> JArray elems)
  \/ (exists elems, parsed = JArray elems /\ JNull ∈ elems)
  \/ (exists elems v, parsed = JArray elems /\ v ∈ elems
                      /\ Date_accepts (field v "timestamp") = false) ->
  localStorage (loadHistory (initialState store)) = delete "chatHistory" store
  /\ loaded (loadHistory (initialState store)) = []
  /\ prevMessageCount (loadHistory (initialState store)) = 0
  /\ initialLoadComplete (loadHistory (initialState store)) = true.
Proof.
  intros Hsaved Hne Hparse Hbad.
  unfold loadHistory, initialState, parseHistory. cbn [localStorage].
  rewrite Hsaved. apply String.eqb_neq in Hne. rewrite Hne, Hparse. cbn [negb].
  destruct Hbad as [Hnot|[(elems & -> & Hnull)|(elems & v & -> & Hin & Hdate)]].
  - destruct parsed; try (repeat split; fail). now destruct (Hnot elems).
  - rewrite (mapM_revive_none elems JNull) by (assumption || reflexivity). repeat split.
  - rewrite (mapM_revive_none elems v) by (assumption || now apply revive_rejected).
    repeat split.
Qed.

(** X16.  Loading never writes to the store: what is stored afterwards was
    stored before with the same value, and no key other than
    [chatHistory] is touched. *)
Theorem loading_never_writes (st : MountState) (key : string) :
  localStorage (loadHistory st) ⊆ localStorage st
  /\ (key <> "chatHistory" -> localStorage (loadHistory st) !! key = localStorage st !! key).
Proof.
  unfold loadHistory.
  destruct (localStorage st !! "chatHistory") as [saved|]; cbn; [|auto].
  destruct (negb (String.eqb saved "")); cbn; [|auto].
  destruct (parseHistory saved); cbn; [auto|].
  split; [apply delete_subseteq|].
  intros Hkey. now apply lookup_delete_ne.
Qed.

(** X17.  Clearing the history empties the list and the stored entry; the
    save effect that runs on the emptied list writes nothing, so a page
    that is loaded afterwards starts without messages, and the other keys
    of the store are as they were. *)
Theorem cleared_history_stays_cleared (JSON_stringify : list (Message Num) -> string)
        (st : State Num) (store : gmap string string) (key : string) :
  let st' := fst (clearChatHistory st store) in
  let store' := saveHistory JSON_stringify (messages st') (snd (clearChatHistory st store)) in
  messages st' = []
  /\ store' !! "chatHistory" = None
  /\ (key <> "chatHistory" -> store' !! key = store !! key)
  /\ loaded (loadHistory (initialState store')) = []
  /\ localStorage (loadHistory (initialState store')) = store'.
Proof.
  cbn. unfold saveHistory. cbn.
  repeat split.
  - apply lookup_delete_eq.
  - intros Hkey. now apply lookup_delete_ne.
  - unfold loadHistory, initialState. cbn. now rewrite lookup_delete_eq.
  - unfold loadHistory, initialState. cbn. now rewrite lookup_delete_eq.
Qed.

End Persistence.

Lemma history_is_loaded_witness :
  length (Startup.loaded
            (Startup.loadHistory (Startup.initialState {["chatHistory" := storedHistory]})))
  = 2.
Proof.
  destruct (history_is_loaded {["chatHistory" := storedHistory]} storedHistory
              [JObject [("id", JString "1"); ("timestamp", JString "t")];
               JNumber (RInt 7)]) as (Hloaded & _).
  - vm_compute. reflexivity.
  - vm_compute. discriminate.
  - vm_compute. reflexivity.
  - repeat constructor; discriminate.
  - rewrite Hloaded. reflexivity.
Defined.

Lemma unusable_history_removed_witness :
  Startup.localStorage
    (Startup.loadHistory (Startup.initialState {["chatHistory" := "[null]"]}))
  = delete "chatHistory" {["chatHistory" := "[null]"]}
  /\ Startup.localStorage
       (Startup.loadHistory (Startup.initialState {["chatHistory" := stubbornHistory]}))
     = delete "chatHistory" {["chatHistory" := stubbornHistory]}.
Proof.
  split.
  - apply (unusable_history_removed {["chatHistory" := "[null]"]} "[null]"
             (JArray [JNull])).
    + vm_compute. reflexivity.
    + discriminate.
    + vm_compute. reflexivity.
    + right. left. exists [JNull]. split; [reflexivity | apply list_elem_of_here].
  - apply (unusable_history_removed {["chatHistory" := stubbornHistory]} stubbornHistory
             (JArray [JObject [("timestamp", JObject [("toString", JNumber (RInt 0))])]])).
    + vm_compute. reflexivity.
    + vm_compute. discriminate.
    + vm_compute. reflexivity.
    + right. right. eexists _, _. split; [reflexivity|].
      split; [apply list_elem_of_here | vm_compute; reflexivity].
Defined.

Lemma loading_never_writes_witness :
  Startup.localStorage (Startup.loadHistory (Startup.initialState (themedStore "{oops")))
  !! "theme"
  = Some "dark".
Proof.
  destruct (loading_never_writes
              (Startup.initialState (Num := RefNum) (themedStore "{oops")) "theme") as [_ H].
  rewrite H by discriminate. vm_compute. reflexivity.
Defined.

Lemma cleared_history_stays_cleared_witness :
  saveHistory (Num := RefNum) (fun _ => "[]") []
    (snd (clearChatHistory (mkState inProgress "" false None) (themedStore "[]")))
  !! "theme"
  = Some "dark".
Proof.
  destruct (cleared_history_stays_cleared (fun _ => "[]")
              (mkState inProgress "" false None) (themedStore "[]") "theme")
    as (_ & _ & H & _).
  transitivity (themedStore "[]" !! "theme"); [apply H; discriminate|].
  vm_compute. reflexivity.
Defined.

(** ** The cards of the reasoning panel and the answer box *)

Section Cards.
Context {Num : Type} `{RT : JSRuntime Num}.
Import AgentReasoning AgentReasoningPanel.

(** X18.  For a step that passed [isValidStep], the card is decided by
    the type alone: an [action] step always shows its tool and its input
    ([(empty)] for an empty input), never the text for a missing content;
    every other step shows its content, or [No content available] when the
    content is there but empty. *)
Theorem valid_step_card (step : JSValue Num) :
  isValidStep step = true ->
  exists ty,
    get_prop step "type" = Some (JString ty)
    /\ renderStepContent step
       = Some (if String.eqb ty "action"
               then ToolCall (field step "tool")
                             (js_or (field step "input") (JString "(empty)"))
               else Text (js_or (field step "content")
                                (JString "No content available"))).
Proof.
  unfold isValidStep, renderStepContent, field.
  destruct step as [| | | | |elems|props]; cbn; try discriminate;
    try (destruct b; discriminate);
    try (destruct (Number_truthy n); discriminate);
    try (destruct (negb (String.eqb s "")); discriminate).
  destruct (lookup_prop "type" props) as [ty|]; cbn; [|discriminate].
  destruct ty as [| | | |ty| |]; cbn; try discriminate;
    try (destruct b; discriminate);
    try (destruct (Number_truthy n); discriminate).
  destruct (String.eqb ty ""); cbn; [discriminate|].
  intros H. exists ty. split; [reflexivity|].
  destruct (String.eqb ty "action"); cbn; [|reflexivity].
  now rewrite H.
Qed.

(** X19.  While the message is live and the counter of the panel is not
    ahead of the valid steps, the effects leave the counter at their
    number; a step that then arrives and is not valid neither opens the
    panel nor moves the counter, a valid one opens the panel. *)
Theorem panel_follows_valid_steps (steps : list (JSValue Num)) (step : JSValue Num)
        (s : PanelState) :
  prevStepCount s <= length (validReasoningSteps steps) ->
  prevStepCount (panelEffects true (length (validReasoningSteps steps)) s)
  = length (validReasoningSteps steps)
  /\ panelEffects true (length (validReasoningSteps (steps ++ [step])))
       (panelEffects true (length (validReasoningSteps steps)) s)
     = if isValidStep step
       then mkPanelState true (S (length (validReasoningSteps steps)))
       else panelEffects true (length (validReasoningSteps steps)) s.
Proof.
  intros Hle. unfold panelEffects. cbn [negb andb].
  set (n := length (validReasoningSteps steps)) in *.
  assert (Hsync : prevStepCount (if (prevStepCount s <? n)%nat
                                 then mkPanelState true n else s) = n).
  { destruct (Nat.ltb_spec (prevStepCount s) n); cbn; lia. }
  split; [exact Hsync|].
  unfold validReasoningSteps in *. rewrite filter_app, length_app. fold n.
  rewrite Hsync. cbn [filter list_filter].
  destruct (isValidStep step) eqn:Hv.
  - rewrite decide_True by reflexivity. cbn [length].
    replace (n <? n + 1)%nat with true by (symmetry; apply Nat.ltb_lt; lia).
    f_equal. lia.
  - rewrite decide_False by discriminate. cbn [length].
    now replace (n <? n + 0)%nat with false by (symmetry; apply Nat.ltb_ge; lia).
Qed.

End Cards.

Section Answer.
Context {Num : Type} `{RT : JSRuntime Num}.

(** X20.  After a [final_result] frame, the assistant message shows in its
    answer box the summary of the frame, or its answer when the summary is
    missing or empty, in the final look, and no box when both are; its SQL
    section is shown exactly when the frame has a non-empty [sql_query]. *)
Theorem final_result_is_shown (aid line : string) (data : JSValue Num)
        (ms : list (Message Num)) (i : nat) (m : Message Num) :
  frameData line = Some data ->
  hasType line "final_result" ->
  ms !! i = Some m ->
  id m = aid ->
  type m = assistant ->
  exists m',
    messages_of (handleLine aid line ms) !! i = Some m'
    /\ answerBox m'
       = (if truthy (js_or (field data "summary") (field data "answer"))
          then Some (js_or (field data "summary") (field data "answer"), false)
          else None)
    /\ sqlSection m'
       = (if truthy (field data "sql_query") then Some (field data "sql_query") else None).
Proof.
  intros Hdata Hty Hm Hid Hassistant.
  destruct (hasType_data _ _ Hty) as (data' & Hdata' & Htype).
  assert (data' = data) by congruence. subst data'.
  rewrite (handleLine_data _ _ _ _ _ Hdata Htype). cbn.
  rewrite updateAssistant_lookup, Hm. cbn.
  rewrite (proj2 (String.eqb_eq _ _) Hid).
  eexists. split; [reflexivity|].
  unfold answerBox, sqlSection, isAssistant. cbn. rewrite Hassistant. cbn. auto.
Qed.

End Answer.

Lemma valid_step_card_witness :
  AgentReasoningPanel.renderStepContent planStep
  = Some (AgentReasoningPanel.Text (JString "look at the schema")).
Proof.
  destruct (valid_step_card planStep) as (ty & Hty & Hcard).
  - reflexivity.
  - rewrite Hcard. injection Hty as <-. reflexivity.
Defined.

Lemma panel_follows_valid_steps_witness :
  AgentReasoningPanel.panelEffects true
    (length (AgentReasoning.validReasoningSteps ([planStep] ++ [JNull])))
    (AgentReasoningPanel.panelEffects true
       (length (AgentReasoning.validReasoningSteps [planStep]))
       (AgentReasoningPanel.mkPanelState false 0))
  = AgentReasoningPanel.mkPanelState true 1.
Proof.
  destruct (panel_follows_valid_steps [planStep] JNull
              (AgentReasoningPanel.mkPanelState false 0)) as [_ H].
  - vm_compute. lia.
  - exact H.
Defined.

Lemma final_result_is_shown_witness :
  exists m',
    messages_of (handleLine aid finalFrame inProgress) !! 1 = Some m'
    /\ answerBox m' = Some (JString "Result is 1", false)
    /\ sqlSection m' = None.
Proof.
  destruct (final_result_is_shown aid finalFrame
              (JObject [("type", JString "final_result");
                        ("summary", JString "Result is 1");
                        ("query_results", JArray [JArray [JNumber (RInt 1)]]);
                        ("columns", JArray [JString "n"])])
              inProgress 1 (assistantMessage clock)) as (m' & Hm' & Hbox & Hsql).
  - vm_compute. reflexivity.
  - vm_compute. reflexivity.
  - reflexivity.
  - reflexivity.
  - reflexivity.
  - exists m'. split; [exact Hm'|]. rewrite Hbox, Hsql. split; reflexivity.
Defined.
